(** * Document forms: a model of [mongoengine/django/forms.py]

    The module adapts mongoengine documents to Django forms.  The embedding
    below follows the source function by function:

    - [construct_instance], [doc_to_dict], [mongofield_to_formfield] and
      [fields_for_doc] are the module-level helpers;
    - [DocFormOptions_init] and [DocFormMetaclass_new] are the class-creation
      hook;
    - [BaseDocForm_init], [_update_errors], [_post_clean] and [save] are the
      methods of [BaseDocForm].

    Python dictionaries without a meaningful order ([cleaned_data], the
    instance's [_data], the submitted data) are [gmap string _]; ordered
    mappings ([doc._fields], Django's [SortedDict]) are association lists.
    Raised exceptions are the [Raise] branch of [result]. *)

From Stdlib Require Import ZArith.
From stdpp Require Import base option list strings gmap fin_maps.

(** ** Python values, truthiness and exceptions *)

Inductive value : Type :=
  | VNone
  | VBool (b : bool)
  | VInt (z : Z)
  | VStr (s : string)
  | VObj (tag : string).

(** [bool(v)]: [None], [False], [0] and the empty string are falsy; any other
    object (a date, an uploaded file) is truthy. *)
Definition truthy (v : value) : bool :=
  match v with
  | VNone => false
  | VBool b => b
  | VInt z => negb (z =? 0)%Z
  | VStr s => negb (String.eqb s "")
  | VObj _ => true
  end.

(** Truthiness of an optional list argument ([None] and [[]] are falsy). *)
Definition truthy_list {A : Type} (l : option (list A)) : bool :=
  match l with
  | Some (_ :: _) => true
  | _ => false
  end.

(** [name in l], for a list [l] that is known not to be [None]. *)
Definition py_in (name : string) (l : list string) : bool :=
  bool_decide (name ∈ l).

(** [l and name in l]. *)
Definition and_in (l : option (list string)) (name : string) : bool :=
  match l with
  | Some l' => truthy_list l && py_in name l'
  | None => false
  end.

(** [l is not None and name not in l]. *)
Definition given_and_not_in (l : option (list string)) (name : string) : bool :=
  match l with
  | Some l' => negb (py_in name l')
  | None => false
  end.

Inductive exn : Type :=
  | TypeError (msg : string)
  | ValueError (msg : string)
  | NameError (msg : string)
  | UnboundLocalError (msg : string)
  | AttributeError (msg : string).

Inductive result (A : Type) : Type :=
  | Ok (a : A)
  | Raise (e : exn).
Arguments Ok {A} a.
Arguments Raise {A} e.

Definition bind {A B : Type} (r : result A) (k : A → result B) : result B :=
  match r with
  | Ok a => k a
  | Raise e => Raise e
  end.

Notation "'let*' x ':=' r 'in' k" := (bind r (λ x, k))
  (at level 10, x pattern, r at level 100, k at level 200).

Definition exn_message (e : exn) : string :=
  match e with
  | TypeError m | ValueError m | NameError m | UnboundLocalError m
  | AttributeError m => m
  end.

(** [needle in hay] on strings. *)
Fixpoint is_substring (needle hay : string) : bool :=
  String.prefix needle hay ||
  match hay with
  | EmptyString => false
  | String _ rest => is_substring needle rest
  end.

(** ** The document side (mongoengine) *)

Module mongoengine.

(** The [validation] attribute of a field: absent, some object that cannot
    be called, or a function (named by [fn]). *)
Inductive validation_attr : Type :=
  | NoValidation
  | NotCallable (v : value)
  | Callable (fn : string).

(** A field descriptor.  [class_name] is [field.__class__.__name__];
    [bases] names the classes it inherits from, which is what [isinstance]
    looks at; [str] is the text [str(field)] gives. *)
Record BaseField : Type := {
  class_name : string;
  bases : list string;
  str : string;
  choices : option (list (value * string));
  validation : validation_attr;
  verbose_name : option string;
  required : bool;
  help_text : option string;
  regex : option string;
  max_length : value;
  min_length : value;
  min_value : value;
  max_value : value;
  verify_exists : bool
}.

Definition isinstance (field : BaseField) (cls : string) : bool :=
  bool_decide (cls ∈ class_name field :: bases field).

(** A document class: its name, its declared fields in order, whether it
    derives from [Document] or [EmbeddedDocument], and the name of the field
    that holds the primary key. *)
Record doc_class : Type := {
  __name__ : string;
  _fields : list (string * BaseField);
  is_Document : bool;
  is_EmbeddedDocument : bool;
  id_field : string
}.

Record instance : Type := {
  __class__ : doc_class;
  _data : gmap string value
}.

(** [field.__get__(instance, None)] and [field.__set__(instance, v)] for the
    field declared under [name]: they read and write [instance._data]. *)
Definition __get__ (name : string) (inst : instance) : value :=
  default VNone (_data inst !! name).

Definition __set__ (name : string) (inst : instance) (v : value) : instance :=
  {| __class__ := __class__ inst; _data := <[name := v]> (_data inst) |}.

Definition pk (inst : instance) : value :=
  __get__ (id_field (__class__ inst)) inst.

(** [doc()] : a fresh instance. *)
Definition new (doc : doc_class) : instance :=
  {| __class__ := doc; _data := ∅ |}.

End mongoengine.

(** ** The form side (django.forms) *)

Module forms.

Inductive field_class : Type :=
  | ChoiceField | CharField | IntegerField | FloatField | BooleanField
  | DateTimeField | DecimalField | URLField | FileField | EmailField
  | ImageField.

Inductive validator : Type :=
  | Custom (fn : string)
  | RegexValidator (regex : string).

(** A form field, as the keyword arguments its constructor received.
    [validators] is the [validators] argument ([[]] when it is not passed). *)
Record Field : Type := {
  cls : field_class;
  label : option string;
  required : bool;
  help_text : option string;
  widget : option string;
  validators : list validator;
  choices : list (value * string);
  max_length : value;
  min_length : value;
  min_value : value;
  max_value : value;
  verify_exists : option bool
}.

(** The arguments every constructor call of the module passes. *)
Definition plain (c : field_class) (validators : list validator)
    (widget label : option string) (required : bool)
    (help_text : option string) : Field :=
  {| cls := c; label := label; required := required; help_text := help_text;
     widget := widget; validators := validators; choices := [];
     max_length := VNone; min_length := VNone;
     min_value := VNone; max_value := VNone; verify_exists := None |}.

Definition with_choices (choices : list (value * string)) (f : Field) : Field :=
  {| cls := cls f; label := label f; required := required f;
     help_text := help_text f; widget := widget f;
     validators := validators f; choices := choices;
     max_length := max_length f; min_length := min_length f;
     min_value := min_value f; max_value := max_value f;
     verify_exists := verify_exists f |}.

Definition with_length (max_length min_length : value) (f : Field) : Field :=
  {| cls := cls f; label := label f; required := required f;
     help_text := help_text f; widget := widget f;
     validators := validators f; choices := choices f;
     max_length := max_length; min_length := min_length;
     min_value := min_value f; max_value := max_value f;
     verify_exists := verify_exists f |}.

Definition with_bounds (min_value max_value : value) (f : Field) : Field :=
  {| cls := cls f; label := label f; required := required f;
     help_text := help_text f; widget := widget f;
     validators := validators f; choices := choices f;
     max_length := max_length f; min_length := min_length f;
     min_value := min_value; max_value := max_value;
     verify_exists := verify_exists f |}.

Definition with_verify_exists (b : bool) (f : Field) : Field :=
  {| cls := cls f; label := label f; required := required f;
     help_text := help_text f; widget := widget f;
     validators := validators f; choices := choices f;
     max_length := max_length f; min_length := min_length f;
     min_value := min_value f; max_value := max_value f;
     verify_exists := Some b |}.

End forms.

(** ** [mongofield_to_formfield] *)

(** The names the function dispatches on, and the table of the [DocForm]
    docstring. *)
Definition supported_kinds : list string :=
  ["StringField"; "IntField"; "FloatField"; "BooleanField"; "DateTimeField";
   "DecimalField"; "URLField"; "FileField"; "EmailField"; "ImageField"].

Definition mongofield_to_formfield (mongo_field : mongoengine.BaseField)
    (widget : option string) : option forms.Field :=
  let label := mongoengine.verbose_name mongo_field in
  let required := mongoengine.required mongo_field in
  let help_text := mongoengine.help_text mongo_field in
  let kind := mongoengine.class_name mongo_field in
  if truthy_list (mongoengine.choices mongo_field) then
    Some (forms.with_choices (default [] (mongoengine.choices mongo_field))
            (forms.plain forms.ChoiceField [] widget label required help_text))
  else
    let validators :=
      match mongoengine.validation mongo_field with
      | mongoengine.Callable fn => [forms.Custom fn]
      | _ => []
      end in
    if String.eqb kind "StringField" then
      let validators :=
        match mongoengine.regex mongo_field with
        | Some r => validators ++ [forms.RegexValidator r]
        | None => validators
        end in
      Some (forms.with_length (mongoengine.max_length mongo_field)
              (mongoengine.min_length mongo_field)
              (forms.plain forms.CharField validators widget label required help_text))
    else if String.eqb kind "IntField" then
      Some (forms.with_bounds (mongoengine.min_value mongo_field)
              (mongoengine.max_value mongo_field)
              (forms.plain forms.IntegerField validators widget label required help_text))
    else if String.eqb kind "FloatField" then
      Some (forms.with_bounds (mongoengine.min_value mongo_field)
              (mongoengine.max_value mongo_field)
              (forms.plain forms.FloatField validators widget label required help_text))
    else if String.eqb kind "BooleanField" then
      Some (forms.plain forms.BooleanField [] widget label required help_text)
    else if String.eqb kind "DateTimeField" then
      Some (forms.plain forms.DateTimeField validators widget label required help_text)
    else if String.eqb kind "DecimalField" then
      Some (forms.with_bounds (mongoengine.min_value mongo_field)
              (mongoengine.max_value mongo_field)
              (forms.plain forms.DecimalField validators widget label required help_text))
    else if String.eqb kind "URLField" then
      Some (forms.with_verify_exists (mongoengine.verify_exists mongo_field)
              (forms.plain forms.URLField validators widget label required help_text))
    else if String.eqb kind "FileField" then
      Some (forms.plain forms.FileField validators widget label required help_text)
    else if String.eqb kind "EmailField" then
      Some (forms.plain forms.EmailField validators widget label required help_text)
    else if String.eqb kind "ImageField" then
      Some (forms.plain forms.ImageField validators widget label required help_text)
    else
      None.


(** ** Django's [SortedDict]: a dictionary that remembers insertion order *)

Module SortedDict.

Definition t (V : Type) : Type := list (string * V).

Fixpoint get {V : Type} (d : t V) (key : string) : option V :=
  match d with
  | [] => None
  | (k, v) :: rest => if String.eqb k key then Some v else get rest key
  end.

(** [d[key] = v]: an existing key keeps its position, a new one is appended. *)
Fixpoint set {V : Type} (d : t V) (key : string) (v : V) : t V :=
  match d with
  | [] => [(key, v)]
  | (k, v') :: rest =>
      if String.eqb k key then (k, v) :: rest else (k, v') :: set rest key v
  end.

Definition update {V : Type} (d other : t V) : t V :=
  foldl (λ acc kv, set acc kv.1 kv.2) d other.

(** [SortedDict(pairs)]: keys in order of first occurrence, last value wins. *)
Definition of_list {V : Type} (pairs : list (string * V)) : t V :=
  update [] pairs.

Definition keys {V : Type} (d : t V) : list string := d.*1.

End SortedDict.

(** A field mapping: a name is bound to a form field or to [None]. *)
Abbreviation field_dict := (SortedDict.t (option forms.Field)).

(** ** Form options, form classes and form instances *)

(** The [formfield_callback] class attribute, when it is not [None]. *)
Inductive callback : Type :=
  | NotCallable
  | Callable (f : mongoengine.BaseField → option string → option forms.Field).

(** The attributes [DocFormOptions] reads off the inner [Meta] class. *)
Record DocFormOptions : Type := {
  document : option mongoengine.doc_class;
  fields : option (list string);
  exclude : option (list string);
  widgets : option (gmap string string)
}.

(** A class made by [DocFormMetaclass]. *)
Record form_class : Type := {
  _meta : DocFormOptions;
  declared_fields : SortedDict.t forms.Field;
  base_fields : field_dict
}.

(** A [BaseDocForm] instance: the attributes the module reads or writes. *)
Record form : Type := {
  form_meta : DocFormOptions;
  form_fields : field_dict;
  instance : mongoengine.instance;
  is_bound : bool;
  data : gmap string value;
  initial : gmap string value;
  _errors : option (gmap string (list string));
  cleaned_data : gmap string value
}.

Definition set_instance (self : form) (inst : mongoengine.instance) : form :=
  {| form_meta := form_meta self; form_fields := form_fields self;
     instance := inst; is_bound := is_bound self; data := data self;
     initial := initial self; _errors := _errors self;
     cleaned_data := cleaned_data self |}.

Definition set_errors (self : form) (errors : option (gmap string (list string)))
    (cleaned : gmap string value) : form :=
  {| form_meta := form_meta self; form_fields := form_fields self;
     instance := instance self; is_bound := is_bound self; data := data self;
     initial := initial self; _errors := errors; cleaned_data := cleaned |}.

(** ** [construct_instance] *)

(** One turn of the loop over [instance._fields.items()]. *)
Definition construct_instance_step (cleaned_data : gmap string value)
    (fields exclude : option (list string))
    (instance : mongoengine.instance)
    (item : string * mongoengine.BaseField) : mongoengine.instance :=
  let '(name, field) := item in
  match cleaned_data !! name with
  | None => instance
  | Some cleaned =>
      if given_and_not_in fields name then instance
      else if and_in exclude name then instance
      else if mongoengine.isinstance field "URLField"
              || mongoengine.isinstance field "EmailField" then
        if truthy cleaned then mongoengine.__set__ name instance cleaned
        else mongoengine.__set__ name instance VNone
      else mongoengine.__set__ name instance cleaned
  end.

Definition construct_instance (form : form) (instance : mongoengine.instance)
    (fields exclude : option (list string)) : mongoengine.instance :=
  foldl (construct_instance_step (cleaned_data form) fields exclude) instance
        (mongoengine._fields (mongoengine.__class__ instance)).

(** ** [doc_to_dict] *)

Definition doc_to_dict_step (instance : mongoengine.instance)
    (fields exclude : option (list string)) (data : gmap string value)
    (item : string * mongoengine.BaseField) : gmap string value :=
  let '(name, field) := item in
  if truthy_list fields && negb (py_in name (default [] fields)) then data
  else if and_in exclude name then data
  else <[name := mongoengine.__get__ name instance]> data.

Definition doc_to_dict (instance : mongoengine.instance)
    (fields exclude : option (list string)) : gmap string value :=
  foldl (doc_to_dict_step instance fields exclude) ∅
        (mongoengine._fields (mongoengine.__class__ instance)).

(** ** [fields_for_doc] *)

(** A [for] loop whose body may raise. *)
Fixpoint for_each {A S : Type} (body : S → A → result S) (items : list A)
    (s : S) : result S :=
  match items with
  | [] => Ok s
  | x :: rest => let* s' := body s x in for_each body rest s'
  end.

Definition unsupported_message (field : mongoengine.BaseField) : string :=
  mongoengine.str field +:+
  " is an unsupported field types at the moment, you should put it in the exclude list".

(** One turn of the loop; the state is [(field_list, ignored)]. *)
Definition fields_for_doc_step (fields exclude : option (list string))
    (widgets : option (gmap string string))
    (formfield_callback : option callback)
    (state : list (string * forms.Field) * list string)
    (item : string * mongoengine.BaseField)
    : result (list (string * forms.Field) * list string) :=
  let '(field_list, ignored) := state in
  let '(name, field) := item in
  if given_and_not_in fields name then Ok state
  else if and_in exclude name then Ok state
  else
    let widget := widgets ≫= (λ w, w !! name) in
    let* formfield :=
      match formfield_callback with
      | None =>
          match mongofield_to_formfield field widget with
          | Some formfield => Ok (Some formfield)
          | None => Raise (TypeError (unsupported_message field))
          end
      | Some NotCallable =>
          Raise (TypeError "formfiled_callback must be a function or callable")
      | Some (Callable f) => Ok (f field widget)
      end in
    match formfield with
    | Some formfield => Ok (field_list ++ [(name, formfield)], ignored)
    | None => Ok (field_list, ignored ++ [name])
    end.

Definition fields_for_doc_loop (doc : mongoengine.doc_class)
    (fields exclude : option (list string))
    (widgets : option (gmap string string))
    (formfield_callback : option callback)
    : result (list (string * forms.Field) * list string) :=
  for_each (fields_for_doc_step fields exclude widgets formfield_callback)
           (mongoengine._fields doc) ([], []).

(** The condition of the final comprehension:
    [(not exclude) or (exclude and f not in exclude) and (f not in ignored)]. *)
Definition restrict_keeps (exclude : option (list string))
    (ignored : list string) (f : string) : bool :=
  negb (truthy_list exclude)
  || (truthy_list exclude && negb (py_in f (default [] exclude))
      && negb (py_in f ignored)).

Definition fields_for_doc (doc : mongoengine.doc_class)
    (fields exclude : option (list string))
    (widgets : option (gmap string string))
    (formfield_callback : option callback) : result field_dict :=
  let* (field_list, ignored) :=
    fields_for_doc_loop doc fields exclude widgets formfield_callback in
  let field_dict : field_dict :=
    SortedDict.of_list (prod_map id Some <$> field_list) in
  if truthy_list fields then
    Ok (SortedDict.of_list
          ((λ f, (f, mjoin (SortedDict.get field_dict f)))
             <$> List.filter (restrict_keeps exclude ignored) (default [] fields)))
  else Ok field_dict.

(** ** [DocFormOptions] and [DocFormMetaclass.__new__] *)

Definition DocFormOptions_init (options : option DocFormOptions) : DocFormOptions :=
  {| document := options ≫= document;
     fields := options ≫= fields;
     exclude := options ≫= exclude;
     widgets := options ≫= widgets |}.

(** What [__new__] returns: the bare class when no base derives from
    [DocForm] (the class being defined is [DocForm] itself), a form class
    otherwise. *)
Inductive new_class : Type :=
  | BareClass
  | DocFormClass (c : form_class).

Fixpoint join (sep : string) (l : list string) : string :=
  match l with
  | [] => ""
  | [x] => x
  | x :: rest => x +:+ sep +:+ join sep rest
  end.

(** [FieldError] is neither imported nor defined in the module, so evaluating
    [FieldError(message)] raises this. *)
Definition FieldError_unbound : exn :=
  NameError "global name 'FieldError' is not defined".

Definition DocFormMetaclass_new (parents : bool)
    (Meta : option DocFormOptions)
    (declared_fields : SortedDict.t forms.Field)
    (formfield_callback : option callback) : result new_class :=
  if negb parents then Ok BareClass
  else
    let opts := DocFormOptions_init Meta in
    match document opts with
    | Some doc =>
        let* fields :=
          fields_for_doc doc (fields opts) (exclude opts) (widgets opts)
                         formfield_callback in
        let none_doc_fields :=
          (List.filter (λ kv, negb (bool_decide (is_Some kv.2))) fields).*1 in
        let missing_fields : gset string :=
          list_to_set none_doc_fields ∖ list_to_set (SortedDict.keys declared_fields) in
        if bool_decide (missing_fields ≠ ∅) then
          let message :=
            "Unknown field(s) (" +:+ join "," (elements missing_fields) +:+
            ") specified for " +:+ mongoengine.__name__ doc in
          Raise FieldError_unbound
        else
          Ok (DocFormClass
                {| _meta := opts; declared_fields := declared_fields;
                   base_fields :=
                     SortedDict.update fields (prod_map id Some <$> declared_fields) |})
    | None =>
        Ok (DocFormClass
              {| _meta := opts; declared_fields := declared_fields;
                 base_fields := prod_map id Some <$> declared_fields |})
    end.

(** ** [BaseDocForm] *)

Definition NON_FIELD_ERRORS : string := "__all__".

(** [BaseDocForm.__init__], followed by what [BaseForm.__init__] stores: the
    form is bound when data is given, and [initial] is [object_data]. *)
Definition BaseDocForm_init (cls : form_class)
    (data initial : option (gmap string value))
    (instance : option mongoengine.instance) : result form :=
  let opts := _meta cls in
  let* (instance, object_data) :=
    match instance with
    | None =>
        match document opts with
        | None => Raise (ValueError "DocForm has no document class specified.")
        | Some doc => Ok (mongoengine.new doc, (∅ : gmap string value))
        end
    | Some instance =>
        Ok (instance, doc_to_dict instance (fields opts) (exclude opts))
    end in
  let object_data :=
    match initial with
    | Some initial => initial ∪ object_data
    | None => object_data
    end in
  Ok {| form_meta := opts; form_fields := base_fields cls;
        instance := instance; is_bound := bool_decide (is_Some data);
        data := default ∅ data; initial := object_data;
        _errors := None; cleaned_data := ∅ |}.

(** [errors.setdefault(k, error_class()).append(message)] *)
Definition append_error (errors : gmap string (list string)) (k message : string)
    : gmap string (list string) :=
  <[k := default [] (errors !! k) ++ [message]]> errors.

(** [message or fallback] *)
Definition message_or (message fallback : string) : string :=
  if String.eqb message "" then fallback else message.

(** [self._errors.setdefault(k, self.error_class()).append(message)]: the
    call fails while [_errors] is still [None], as it is after [__init__]. *)
Definition record_error (errors : option (gmap string (list string)))
    (k message : string) : result (gmap string (list string)) :=
  match errors with
  | None => Raise (AttributeError "'NoneType' object has no attribute 'setdefault'")
  | Some errors => Ok (append_error errors k message)
  end.

(** The loop of [_update_errors] over [message_dict.items()].  The state is
    [(self._errors, self.cleaned_data)]; the loop ends at the first
    exception, leaving the state as it is then. *)
Fixpoint _update_errors_loop (items : list (string * string))
    (errors : option (gmap string (list string))) (cleaned : gmap string value)
    : (option (gmap string (list string)) * gmap string value) * option exn :=
  match items with
  | [] => ((errors, cleaned), None)
  | (k, message) :: rest =>
      if String.eqb k NON_FIELD_ERRORS then _update_errors_loop rest errors cleaned
      else
        match record_error errors k
                (message_or message
                   ("MongoEngine data valid failed in " +:+ k +:+ "!")) with
        | Raise e => ((errors, cleaned), Some e)
        | Ok errors' => _update_errors_loop rest (Some errors') (delete k cleaned)
        end
  end.

(** [_update_errors]: [message_dict] binds a field name, or
    [NON_FIELD_ERRORS], to the message of its error.  The result is the form
    as the call leaves it, and the exception that ended the call, if any. *)
Definition _update_errors (self : form) (message_dict : list (string * string))
    : form * option exn :=
  match _update_errors_loop message_dict (_errors self) (cleaned_data self) with
  | ((errors, cleaned), Some e) => (set_errors self errors cleaned, Some e)
  | ((errors, cleaned), None) =>
      match SortedDict.get message_dict NON_FIELD_ERRORS with
      | Some message =>
          match record_error errors NON_FIELD_ERRORS
                  (message_or message "MongoEngine data valid failed") with
          | Raise e => (set_errors self errors cleaned, Some e)
          | Ok errors' => (set_errors self (Some errors') cleaned, None)
          end
      | None => (set_errors self errors cleaned, None)
      end
  end.

(** [if self._errors:] *)
Definition has_errors (self : form) : bool :=
  match _errors self with
  | Some errors => bool_decide (errors ≠ ∅)
  | None => false
  end.

(** [save].  The boolean of the result tells whether [instance.save()] was
    called. *)
Definition save (self : form) (commit : bool)
    : result (mongoengine.instance * bool) :=
  let cls := mongoengine.__class__ (instance self) in
  if mongoengine.is_EmbeddedDocument cls then
    if commit then
      Raise (ValueError "EmbeddedDocument doesn't support 'commit' paramiter.")
    else Ok (instance self, false)
  else
    let fail_message : option string :=
      if mongoengine.is_Document cls then
        match mongoengine.pk (instance self) with
        | VNone => Some "created"
        | _ => Some "changed"
        end
      else None in
    if has_errors self then
      match fail_message with
      | Some fail_message =>
          Raise (ValueError
                   ("The " +:+ mongoengine.__name__ cls +:+ " could not be " +:+
                    fail_message +:+ " because the data didn't validate."))
      | None =>
          Raise (UnboundLocalError
                   "local variable 'fail_message' referenced before assignment")
      end
    else Ok (instance self, commit).

(** *** Cleaning

    Field cleaning and document validation belong to Django and to
    mongoengine.  The section takes them as given: [clean field v] is what
    [field.clean] makes of the submitted value [v] (a cleaned value, or the
    message of the [ValidationError] it raises), and [validate instance] is
    [None] when [instance.validate()] passes and the [errors] dictionary of
    the exception otherwise. *)

Section Cleaning.

Variable clean : forms.Field → value → value + string.
Variable validate : mongoengine.instance → option (list (string * string)).

(** [_post_clean]: the form as the call leaves it, and the exception that
    ended the call, if any (only [ValidationError] is caught). *)
Definition _post_clean (self : form) : form * option exn :=
  let opts := form_meta self in
  let self :=
    set_instance self
      (construct_instance self (instance self) (fields opts) (exclude opts)) in
  match validate (instance self) with
  | None => (self, None)
  | Some errors => _update_errors self errors
  end.

(** One turn of Django's [_clean_fields]: the submitted value of the field is
    cleaned and stored, or its error is recorded. *)
Definition _clean_fields_step (self : form) (item : string * option forms.Field)
    : result form :=
  let '(name, field) := item in
  match field with
  | None => Raise (AttributeError "'NoneType' object has no attribute 'widget'")
  | Some field =>
      match clean field (default VNone (data self !! name)) with
      | inl cleaned =>
          Ok (set_errors self (_errors self) (<[name := cleaned]> (cleaned_data self)))
      | inr message =>
          Ok (set_errors self
                (Some (<[name := [message]]> (default ∅ (_errors self))))
                (delete name (cleaned_data self)))
      end
  end.

(** Django's [full_clean], as far as this module hooks into it: the fields
    are cleaned one by one, then [_post_clean] runs. *)
Definition full_clean (self : form) : result form :=
  let self := set_errors self (Some ∅) (cleaned_data self) in
  if negb (is_bound self) then Ok self
  else
    let self := set_errors self (_errors self) ∅ in
    let* self := for_each _clean_fields_step (form_fields self) self in
    match _post_clean self with
    | (self, None) => Ok self
    | (_, Some e) => Raise e
    end.

(** A form is made for [instance], the values it shows are submitted back
    unchanged, the form is cleaned and saved without committing. *)
Definition round_trip (cls : form_class) (instance : mongoengine.instance)
    : result mongoengine.instance :=
  let* shown := BaseDocForm_init cls None None (Some instance) in
  let* submitted := BaseDocForm_init cls (Some (initial shown)) None (Some instance) in
  let* cleaned := full_clean submitted in
  let* saved := save cleaned false in
  Ok saved.1.

End Cleaning.

(** ** Sample documents *)

Module Sample.

(** A descriptor of the given class with every option left at its default. *)
Definition field (kind : string) (bases : list string) : mongoengine.BaseField :=
  {| mongoengine.class_name := kind; mongoengine.bases := bases;
     mongoengine.str := "<mongoengine.fields." +:+ kind +:+ " object at 0x1>";
     mongoengine.choices := None;
     mongoengine.validation := mongoengine.NoValidation;
     mongoengine.verbose_name := None; mongoengine.required := false;
     mongoengine.help_text := None; mongoengine.regex := None;
     mongoengine.max_length := VNone; mongoengine.min_length := VNone;
     mongoengine.min_value := VNone; mongoengine.max_value := VNone;
     mongoengine.verify_exists := false |}.

Definition with_validation (fn : string) (f : mongoengine.BaseField)
    : mongoengine.BaseField :=
  {| mongoengine.class_name := mongoengine.class_name f;
     mongoengine.bases := mongoengine.bases f;
     mongoengine.str := mongoengine.str f;
     mongoengine.choices := mongoengine.choices f;
     mongoengine.validation := mongoengine.Callable fn;
     mongoengine.verbose_name := mongoengine.verbose_name f;
     mongoengine.required := mongoengine.required f;
     mongoengine.help_text := mongoengine.help_text f;
     mongoengine.regex := mongoengine.regex f;
     mongoengine.max_length := mongoengine.max_length f;
     mongoengine.min_length := mongoengine.min_length f;
     mongoengine.min_value := mongoengine.min_value f;
     mongoengine.max_value := mongoengine.max_value f;
     mongoengine.verify_exists := mongoengine.verify_exists f |}.

Definition with_choices (choices : list (value * string))
    (f : mongoengine.BaseField) : mongoengine.BaseField :=
  {| mongoengine.class_name := mongoengine.class_name f;
     mongoengine.bases := mongoengine.bases f;
     mongoengine.str := mongoengine.str f;
     mongoengine.choices := Some choices;
     mongoengine.validation := mongoengine.validation f;
     mongoengine.verbose_name := mongoengine.verbose_name f;
     mongoengine.required := mongoengine.required f;
     mongoengine.help_text := mongoengine.help_text f;
     mongoengine.regex := mongoengine.regex f;
     mongoengine.max_length := mongoengine.max_length f;
     mongoengine.min_length := mongoengine.min_length f;
     mongoengine.min_value := mongoengine.min_value f;
     mongoengine.max_value := mongoengine.max_value f;
     mongoengine.verify_exists := mongoengine.verify_exists f |}.

Definition StringField := field "StringField" ["BaseField"].
Definition BooleanField := field "BooleanField" ["BaseField"].
Definition EmailField := field "EmailField" ["StringField"; "BaseField"].
Definition ListField := field "ListField" ["BaseField"].

(** A list field restricted to two choices, with a validation function. *)
Definition colours : mongoengine.BaseField :=
  with_validation "check_colour"
    (with_choices [(VStr "r", "Red"); (VStr "g", "Green")] ListField).

(** [class User(Document)] with a name and an e-mail address. *)
Definition User : mongoengine.doc_class :=
  {| mongoengine.__name__ := "User";
     mongoengine._fields := [("name", StringField); ("email", EmailField)];
     mongoengine.is_Document := true;
     mongoengine.is_EmbeddedDocument := false;
     mongoengine.id_field := "id" |}.

(** [class Post(Document)] with a title and a list of tags. *)
Definition Post : mongoengine.doc_class :=
  {| mongoengine.__name__ := "Post";
     mongoengine._fields := [("title", StringField); ("tags", ListField)];
     mongoengine.is_Document := true;
     mongoengine.is_EmbeddedDocument := false;
     mongoengine.id_field := "id" |}.

(** [class Address(EmbeddedDocument)] with a street. *)
Definition Address : mongoengine.doc_class :=
  {| mongoengine.__name__ := "Address";
     mongoengine._fields := [("street", StringField)];
     mongoengine.is_Document := false;
     mongoengine.is_EmbeddedDocument := true;
     mongoengine.id_field := "id" |}.

(** A user who was never saved and whose e-mail address is the empty string. *)
Definition ann : mongoengine.instance :=
  {| mongoengine.__class__ := User;
     mongoengine._data := {[ "name" := VStr "Ann"; "email" := VStr "" ]} |}.

(** A user with an address and a primary key. *)
Definition bob : mongoengine.instance :=
  {| mongoengine.__class__ := User;
     mongoengine._data :=
       {[ "id" := VInt 7; "name" := VStr "Bob"; "email" := VStr "bob@example.org" ]} |}.

Definition home : mongoengine.instance :=
  {| mongoengine.__class__ := Address;
     mongoengine._data := {[ "street" := VStr "Main St" ]} |}.

Definition options (doc : mongoengine.doc_class)
    (fields exclude : option (list string)) : DocFormOptions :=
  {| document := Some doc; fields := fields; exclude := exclude;
     widgets := None |}.

(** A form for [inst] on which one error was recorded for [name]. *)
Definition failed_form (inst : mongoengine.instance) (name : string) : form :=
  {| form_meta := options (mongoengine.__class__ inst) None None;
     form_fields := []; instance := inst; is_bound := true; data := ∅;
     initial := ∅; _errors := Some {[ name := ["This field is required."] ]};
     cleaned_data := ∅ |}.

(** A form whose cleaning left [cleaned] and no error. *)
Definition cleaned_form (inst : mongoengine.instance)
    (cleaned : gmap string value) : form :=
  {| form_meta := options (mongoengine.__class__ inst) None None;
     form_fields := []; instance := inst; is_bound := true; data := cleaned;
     initial := ∅; _errors := Some ∅; cleaned_data := cleaned |}.

(** An override that leaves e-mail fields out and translates the others as
    the module does. *)
Definition skip_email : callback :=
  Callable (λ field widget,
    if String.eqb (mongoengine.class_name field) "EmailField" then None
    else mongofield_to_formfield field widget).

(** The class [class UserForm(DocForm): class Meta: document = User]. *)
Definition UserForm : form_class :=
  {| _meta := options User None None;
     declared_fields := [];
     base_fields :=
       [("name", Some (forms.with_length VNone VNone
                         (forms.plain forms.CharField [] None None false None)));
        ("email", Some (forms.plain forms.EmailField [] None None false None))] |}.

(** Cleaning that returns the submitted value, validation that passes. *)
Definition clean_echo (_ : forms.Field) (v : value) : value + string := inl v.
Definition validate_ok (_ : mongoengine.instance)
    : option (list (string * string)) := None.

End Sample.

(** ** The properties claimed of a run, stated once *)

(** The message [save] puts in its [ValueError]. *)
Definition save_failure_message (self : form) : string :=
  "The " +:+ mongoengine.__name__ (mongoengine.__class__ (instance self)) +:+
  " could not be " +:+
  match mongoengine.pk (instance self) with
  | VNone => "created"
  | _ => "changed"
  end +:+
  " because the data didn't validate.".

(** [save] refuses with that message. *)
Definition save_refuses (self : form) (commit : bool) : Prop :=
  save self commit = Raise (ValueError (save_failure_message self)).

(** The form field made for [mongo_field] carries its validation function. *)
Definition validation_carried (mongo_field : mongoengine.BaseField)
    (widget : option string) (fn : string) : Prop :=
  ∃ formfield,
    mongofield_to_formfield mongo_field widget = Some formfield ∧
    forms.Custom fn ∈ forms.validators formfield.

(** A field is kept by the include/exclude tests of the collector's loop. *)
Definition survives (fields exclude : option (list string)) (name : string) : bool :=
  negb (given_and_not_in fields name) && negb (and_in exclude name).

(** The collector fails with a message that names both the field and its
    descriptor. *)
Definition names_field_and_descriptor (name : string)
    (field : mongoengine.BaseField) (r : result field_dict) : Prop :=
  ∃ e, r = Raise e ∧
       is_substring name (exn_message e) = true ∧
       is_substring (mongoengine.str field) (exn_message e) = true.

(** The keys the include-list rule of the specification asks for: the names
    of the include list, in its order, without the excluded and the ignored
    ones. *)
Definition include_list_keys (fields : list string)
    (exclude : option (list string)) (ignored : list string) : list string :=
  List.filter (λ f, negb (py_in f (default [] exclude)) && negb (py_in f ignored))
              fields.

(** The include/exclude tests of [doc_to_dict]'s loop. *)
Definition read_scope (fields exclude : option (list string)) (name : string) : bool :=
  negb (truthy_list fields && negb (py_in name (default [] fields)))
  && negb (and_in exclude name).

(** The setting of a round trip: the form class was created for the
    instance's document class, every field in scope is of a supported class,
    cleaning hands back each submitted value as it is, and validation passes
    on a document that holds the instance's values. *)
Record round_trip_setting (clean : forms.Field → value → value + string)
    (validate : mongoengine.instance → option (list (string * string)))
    (Meta : DocFormOptions) (declared : SortedDict.t forms.Field)
    (formfield_callback : option callback) (cls : form_class)
    (inst : mongoengine.instance) : Prop := {
  class_created :
    DocFormMetaclass_new true (Some Meta) declared formfield_callback
      = Ok (DocFormClass cls);
  bound_document : document Meta = Some (mongoengine.__class__ inst);
  kinds_supported :
    ∀ name field,
      (name, field) ∈ mongoengine._fields (mongoengine.__class__ inst) →
      survives (fields Meta) (exclude Meta) name = true →
      mongoengine.class_name field ∈ supported_kinds;
  clean_echoes :
    ∀ name field,
      (name, Some field) ∈ base_fields cls →
      clean field
        (default VNone (doc_to_dict inst (fields Meta) (exclude Meta) !! name))
      = inl (default VNone (doc_to_dict inst (fields Meta) (exclude Meta) !! name));
  validation_passes :
    ∀ inst',
      (∀ name, mongoengine.__get__ name inst' = mongoengine.__get__ name inst) →
      validate inst' = None
}.

(** The round trip returns an instance that holds, under every field in
    scope, the value the original instance holds. *)
Definition round_trip_preserves (clean : forms.Field → value → value + string)
    (validate : mongoengine.instance → option (list (string * string)))
    (cls : form_class) (inst : mongoengine.instance) : Prop :=
  ∃ inst',
    round_trip clean validate cls inst = Ok inst' ∧
    ∀ name field,
      (name, field) ∈ mongoengine._fields (mongoengine.__class__ inst) →
      survives (fields (_meta cls)) (exclude (_meta cls)) name = true →
      mongoengine.__get__ name inst' = mongoengine.__get__ name inst.

(** No URL or e-mail field in scope holds a falsy value other than [None]. *)
Definition url_email_values_settled (fields exclude : option (list string))
    (inst : mongoengine.instance) : Prop :=
  ∀ name field,
    (name, field) ∈ mongoengine._fields (mongoengine.__class__ inst) →
    survives fields exclude name = true →
    mongoengine.isinstance field "URLField"
      || mongoengine.isinstance field "EmailField" = true →
    mongoengine.__get__ name inst = VNone
    ∨ truthy (mongoengine.__get__ name inst) = true.

(** When the loop reaches [continue] for [name]. *)
Definition skipped (cleaned_data : gmap string value)
    (fields exclude : option (list string)) (name : string) : Prop :=
  cleaned_data !! name = None ∨ given_and_not_in fields name = true
  ∨ and_in exclude name = true.

(** What the loop writes for a field that is not skipped. *)
Definition written (field : mongoengine.BaseField) (cleaned : value) : value :=
  if (mongoengine.isinstance field "URLField"
      || mongoengine.isinstance field "EmailField") && negb (truthy cleaned)
  then VNone else cleaned.

(** * Theorems *)

(** ** The field translator *)

Lemma truthy_list_cons {A : Type} (l : option (list A)) :
  truthy_list l = true ↔ ∃ x xs, l = Some (x :: xs).
Proof.
  destruct l as [[|x xs]|]; simpl; split; try discriminate; eauto;
    intros (? & ? & ?); discriminate.
Qed.

(** C3: a descriptor with a non-empty [choices] attribute is translated to a
    [ChoiceField] offering exactly those choices, whatever its class. *)
Theorem choices_give_choice_field (mongo_field : mongoengine.BaseField)
    (widget : option string) (choices : list (value * string)) :
  mongoengine.choices mongo_field = Some choices →
  choices ≠ [] →
  ∃ formfield,
    mongofield_to_formfield mongo_field widget = Some formfield ∧
    forms.cls formfield = forms.ChoiceField ∧
    forms.choices formfield = choices.
Proof.
  intros Hc Hne. unfold mongofield_to_formfield. rewrite Hc.
  destruct choices as [|c cs]; [done|]. simpl. eauto.
Qed.

Lemma choices_give_choice_field_witness :
  ∃ formfield,
    mongofield_to_formfield Sample.colours (Some "RadioSelect") = Some formfield ∧
    forms.cls formfield = forms.ChoiceField ∧
    forms.choices formfield = [(VStr "r", "Red"); (VStr "g", "Green")].
Proof.
  apply (choices_give_choice_field Sample.colours (Some "RadioSelect")
           [(VStr "r", "Red"); (VStr "g", "Green")]).
  - reflexivity.
  - discriminate.
Defined.

(** Which classes the translator knows does not depend on the widget. *)
Lemma mongofield_to_formfield_widget (mongo_field : mongoengine.BaseField)
    (w w' : option string) :
  mongofield_to_formfield mongo_field w = None →
  mongofield_to_formfield mongo_field w' = None.
Proof.
  unfold mongofield_to_formfield.
  repeat (case_match; try discriminate); done.
Qed.

(** C7, as claimed, fails on a descriptor with choices: the [ChoiceField] is
    returned before the validation attribute is looked at. *)
Lemma validation_dropped_for_choices :
  mongoengine.validation Sample.colours = mongoengine.Callable "check_colour" ∧
  is_Some (mongofield_to_formfield Sample.colours None) ∧
  ¬ validation_carried Sample.colours None "check_colour".
Proof.
  split; [reflexivity|]. split; [by eexists|].
  intros (formfield & Hff & Hin). vm_compute in Hff.
  injection Hff as <-. simpl in Hin. by apply elem_of_nil in Hin.
Qed.

(** C7 (amended): for a descriptor without choices, of a supported class other
    than [BooleanField], the form field's validators contain the descriptor's
    validation function; a descriptor with choices yields a [ChoiceField]
    built without validators, whatever its validation attribute. *)
Theorem validation_carried_unless_choices (mongo_field : mongoengine.BaseField)
    (widget : option string) :
  (∀ fn,
     mongoengine.validation mongo_field = mongoengine.Callable fn →
     truthy_list (mongoengine.choices mongo_field) = false →
     mongoengine.class_name mongo_field ∈ supported_kinds →
     mongoengine.class_name mongo_field ≠ "BooleanField" →
     validation_carried mongo_field widget fn) ∧
  (truthy_list (mongoengine.choices mongo_field) = true →
   ∃ formfield,
     mongofield_to_formfield mongo_field widget = Some formfield ∧
     forms.cls formfield = forms.ChoiceField ∧
     forms.validators formfield = []).
Proof.
  split.
  - intros fn Hv Hc Hk Hb. unfold validation_carried, mongofield_to_formfield.
    rewrite Hc, Hv. unfold supported_kinds in Hk.
    repeat (apply elem_of_cons in Hk as [Hk' | Hk];
      [ rewrite Hk' in Hb |- *; try done; simpl; eexists;
        (split; [reflexivity|]); simpl; try case_match; apply list_elem_of_here
      | ]).
    by apply elem_of_nil in Hk.
  - intros Hc. unfold mongofield_to_formfield. rewrite Hc. by eexists.
Qed.

Lemma validation_carried_unless_choices_witness :
  validation_carried (Sample.with_validation "check_name" Sample.StringField)
    None "check_name" ∧
  ∃ formfield,
    mongofield_to_formfield Sample.colours None = Some formfield ∧
    forms.cls formfield = forms.ChoiceField ∧
    forms.validators formfield = [].
Proof.
  split.
  - apply (proj1 (validation_carried_unless_choices
                    (Sample.with_validation "check_name" Sample.StringField) None)
             "check_name").
    + reflexivity.
    + reflexivity.
    + apply list_elem_of_here.
    + discriminate.
  - apply (proj2 (validation_carried_unless_choices Sample.colours None)).
    reflexivity.
Defined.

(** ** [save] *)

(** C5, as claimed, fails for an embedded document: [save] returns the
    instance although an error is recorded. *)
Lemma save_embedded_with_errors_returns :
  has_errors (Sample.failed_form Sample.home "street") = true ∧
  save (Sample.failed_form Sample.home "street") false = Ok (Sample.home, false) ∧
  ¬ save_refuses (Sample.failed_form Sample.home "street") false.
Proof.
  split; [reflexivity|]. split; [reflexivity|].
  unfold save_refuses. vm_compute. discriminate.
Qed.

(** C5 (amended): when errors are recorded and the bound instance is a
    [Document] (and not an [EmbeddedDocument]), [save] raises a [ValueError]
    whose message names the instance's class and says "created" when [pk] is
    [None], "changed" otherwise, whatever [commit] is.  For an embedded
    document [save] does not look at the error state: it returns the
    instance when [commit] is false and raises the commit error when it is
    true. *)
Theorem save_with_errors_by_kind (self : form) (commit : bool) :
  (has_errors self = true →
   mongoengine.is_EmbeddedDocument (mongoengine.__class__ (instance self)) = false →
   mongoengine.is_Document (mongoengine.__class__ (instance self)) = true →
   save_refuses self commit) ∧
  (mongoengine.is_EmbeddedDocument (mongoengine.__class__ (instance self)) = true →
   save self commit =
     if commit
     then Raise (ValueError "EmbeddedDocument doesn't support 'commit' paramiter.")
     else Ok (instance self, false)).
Proof.
  split.
  - intros Herr Hemb Hdoc. unfold save_refuses, save, save_failure_message.
    rewrite Hemb, Hdoc, Herr.
    by destruct (mongoengine.pk (instance self)).
  - intros Hemb. unfold save. rewrite Hemb. by destruct commit.
Qed.

Lemma save_with_errors_by_kind_witness :
  save (Sample.failed_form Sample.ann "name") true =
    Raise (ValueError "The User could not be created because the data didn't validate.") ∧
  save (Sample.failed_form Sample.bob "name") false =
    Raise (ValueError "The User could not be changed because the data didn't validate.") ∧
  save (Sample.failed_form Sample.home "street") false = Ok (Sample.home, false) ∧
  save (Sample.failed_form Sample.home "street") true =
    Raise (ValueError "EmbeddedDocument doesn't support 'commit' paramiter.").
Proof.
  split; [|split; [|split]].
  - apply (proj1 (save_with_errors_by_kind
                    (Sample.failed_form Sample.ann "name") true)); reflexivity.
  - apply (proj1 (save_with_errors_by_kind
                    (Sample.failed_form Sample.bob "name") false)); reflexivity.
  - apply (proj2 (save_with_errors_by_kind
                    (Sample.failed_form Sample.home "street") false)); reflexivity.
  - apply (proj2 (save_with_errors_by_kind
                    (Sample.failed_form Sample.home "street") true)); reflexivity.
Defined.

(** ** [construct_instance] *)

Lemma given_and_not_in_true (l : option (list string)) (name : string) :
  given_and_not_in l name = true ↔ ∃ l', l = Some l' ∧ name ∉ l'.
Proof.
  unfold given_and_not_in, py_in. destruct l as [l'|].
  - rewrite negb_true_iff, bool_decide_eq_false. split.
    + intros Hnin. eauto.
    + by intros (? & [= <-] & Hnin).
  - split; [discriminate|]. by intros (? & [=] & _).
Qed.

Lemma and_in_true (l : option (list string)) (name : string) :
  and_in l name = true ↔ ∃ l', l = Some l' ∧ name ∈ l'.
Proof.
  unfold and_in, py_in. destruct l as [l'|].
  - rewrite andb_true_iff, bool_decide_eq_true. split.
    + intros [_ Hin]. eauto.
    + intros (? & [= <-] & Hin). split; [|done].
      destruct l'; [by apply elem_of_nil in Hin | done].
  - split; [discriminate|]. by intros (? & [=] & _).
Qed.

Section ConstructInstance.

Variable cleaned_data : gmap string value.
Variables fields exclude : option (list string).

Local Abbreviation step := (construct_instance_step cleaned_data fields exclude).

Lemma construct_instance_step_class inst item :
  mongoengine.__class__ (step inst item) = mongoengine.__class__ inst.
Proof.
  unfold construct_instance_step. destruct item as [name field].
  repeat case_match; done.
Qed.

Lemma construct_instance_step_skipped inst name field :
  skipped cleaned_data fields exclude name → step inst (name, field) = inst.
Proof.
  unfold construct_instance_step. intros [H | [H | H]]; rewrite H.
  - done.
  - by case_match.
  - by repeat case_match.
Qed.

Lemma construct_instance_step_other inst item name :
  item.1 ≠ name →
  mongoengine._data (step inst item) !! name = mongoengine._data inst !! name.
Proof.
  unfold construct_instance_step. destruct item as [n field]. simpl.
  intros Hne. repeat case_match; try done; simpl; by rewrite lookup_insert_ne.
Qed.

Lemma construct_instance_step_written inst name field cleaned :
  cleaned_data !! name = Some cleaned →
  given_and_not_in fields name = false →
  and_in exclude name = false →
  mongoengine._data (step inst (name, field)) !! name = Some (written field cleaned).
Proof.
  unfold construct_instance_step, written. intros -> -> ->.
  destruct (_ || _), (truthy cleaned); simpl; by rewrite lookup_insert_eq.
Qed.

Lemma construct_instance_loop_class items inst :
  mongoengine.__class__ (foldl step inst items) = mongoengine.__class__ inst.
Proof.
  revert inst. induction items as [|item items IH]; intros inst; [done|].
  cbn [foldl]. by rewrite IH, construct_instance_step_class.
Qed.

(** The loop leaves [name] alone when every turn on [name] is skipped. *)
Lemma construct_instance_loop_frame items inst name :
  (name ∈ items.*1 → skipped cleaned_data fields exclude name) →
  mongoengine._data (foldl step inst items) !! name = mongoengine._data inst !! name.
Proof.
  revert inst. induction items as [|[n field] items IH]; intros inst Hskip; [done|].
  cbn [foldl]. rewrite IH.
  - destruct (decide (n = name)) as [->|Hne].
    + rewrite construct_instance_step_skipped; [done|].
      apply Hskip. simpl. apply list_elem_of_here.
    + by apply construct_instance_step_other.
  - intros Hin. apply Hskip. simpl. by apply list_elem_of_further.
Qed.

(** With distinct names, the turn on [name] decides the final value. *)
Lemma construct_instance_loop_written items inst name field cleaned :
  NoDup items.*1 →
  (name, field) ∈ items →
  cleaned_data !! name = Some cleaned →
  given_and_not_in fields name = false →
  and_in exclude name = false →
  mongoengine._data (foldl step inst items) !! name = Some (written field cleaned).
Proof.
  intros Hnd Hin Hc Hf He. revert inst Hnd Hin.
  induction items as [|[n f] items IH]; intros inst Hnd Hin.
  { by apply elem_of_nil in Hin. }
  simpl in Hnd. apply NoDup_cons in Hnd as [Hfresh Hnd].
  apply elem_of_cons in Hin as [[= <- <-] | Hin]; cbn [foldl].
  - rewrite construct_instance_loop_frame; [|done].
    by apply construct_instance_step_written.
  - by apply IH.
Qed.

End ConstructInstance.

(** C10: [construct_instance] keeps the instance's class and leaves alone
    every attribute whose name is not a key of [cleaned_data], is missing from
    a given include list, is in the exclude list, or is not a declared field. *)
Theorem construct_instance_frame (form : form) (inst : mongoengine.instance)
    (fields exclude : option (list string)) (name : string) :
  cleaned_data form !! name = None
  ∨ (∃ included, fields = Some included ∧ name ∉ included)
  ∨ (∃ excluded, exclude = Some excluded ∧ name ∈ excluded)
  ∨ name ∉ (mongoengine._fields (mongoengine.__class__ inst)).*1 →
  mongoengine.__class__ (construct_instance form inst fields exclude)
    = mongoengine.__class__ inst ∧
  mongoengine._data (construct_instance form inst fields exclude) !! name
    = mongoengine._data inst !! name.
Proof.
  intros H. unfold construct_instance. split.
  { apply construct_instance_loop_class. }
  apply construct_instance_loop_frame. intros Hin. unfold skipped.
  destruct H as [H | [H | [H | H]]].
  - by left.
  - right; left. by apply given_and_not_in_true.
  - right; right. by apply and_in_true.
  - done.
Qed.

Lemma construct_instance_frame_witness :
  mongoengine._data
    (construct_instance
       (Sample.cleaned_form Sample.bob {[ "name" := VStr "Rob"; "email" := VStr "" ]})
       Sample.bob (Some ["name"]) None) !! "email"
  = Some (VStr "bob@example.org").
Proof.
  apply (construct_instance_frame
           (Sample.cleaned_form Sample.bob {[ "name" := VStr "Rob"; "email" := VStr "" ]})
           Sample.bob (Some ["name"]) None "email").
  right; left. exists ["name"]. split; [reflexivity|].
  apply (bool_decide_unpack _). vm_compute. exact I.
Defined.

(** C4: for a declared field that the loop does not skip, a URL or e-mail
    field with a falsy cleaned value ends up holding [None], and any other
    field ends up holding its cleaned value. *)
Theorem construct_instance_writes (form : form) (inst : mongoengine.instance)
    (fields exclude : option (list string)) (name : string)
    (field : mongoengine.BaseField) (cleaned : value) :
  NoDup (mongoengine._fields (mongoengine.__class__ inst)).*1 →
  (name, field) ∈ mongoengine._fields (mongoengine.__class__ inst) →
  cleaned_data form !! name = Some cleaned →
  given_and_not_in fields name = false →
  and_in exclude name = false →
  mongoengine._data (construct_instance form inst fields exclude) !! name =
    Some (if (mongoengine.isinstance field "URLField"
              || mongoengine.isinstance field "EmailField")
             && negb (truthy cleaned)
          then VNone else cleaned).
Proof.
  intros. unfold construct_instance.
  by apply construct_instance_loop_written.
Qed.

Lemma construct_instance_writes_witness :
  mongoengine._data
    (construct_instance
       (Sample.cleaned_form Sample.bob {[ "name" := VStr ""; "email" := VStr "" ]})
       Sample.bob None None) !! "email" = Some VNone ∧
  mongoengine._data
    (construct_instance
       (Sample.cleaned_form Sample.bob {[ "name" := VStr ""; "email" := VStr "" ]})
       Sample.bob None None) !! "name" = Some (VStr "").
Proof.
  split.
  - apply (construct_instance_writes
             (Sample.cleaned_form Sample.bob {[ "name" := VStr ""; "email" := VStr "" ]})
             Sample.bob None None "email" Sample.EmailField (VStr "")).
    + apply (bool_decide_unpack _). vm_compute. exact I.
    + apply list_elem_of_further, list_elem_of_here.
    + reflexivity.
    + reflexivity.
    + reflexivity.
  - apply (construct_instance_writes
             (Sample.cleaned_form Sample.bob {[ "name" := VStr ""; "email" := VStr "" ]})
             Sample.bob None None "name" Sample.StringField (VStr "")).
    + apply (bool_decide_unpack _). vm_compute. exact I.
    + apply list_elem_of_here.
    + reflexivity.
    + reflexivity.
    + reflexivity.
Defined.

(** ** [fields_for_doc] *)

Lemma for_each_app {A S : Type} (body : S → A → result S) (l1 l2 : list A) (s : S) :
  for_each body (l1 ++ l2) s = let* s' := for_each body l1 s in for_each body l2 s'.
Proof.
  revert s. induction l1 as [|x l1 IH]; intros s; [done|].
  simpl. destruct (body s x); simpl; [apply IH | done].
Qed.

Lemma prefix_append (s t : string) : String.prefix s (s +:+ t) = true.
Proof.
  induction s as [|a s IH]; simpl.
  - by destruct t.
  - by destruct (Ascii.ascii_dec a a).
Qed.

Lemma is_substring_append (s t : string) : is_substring s (s +:+ t) = true.
Proof.
  pose proof (prefix_append s t) as Hp.
  destruct (s +:+ t); cbn [is_substring]; by rewrite Hp.
Qed.

Section Collector.

Variables fields exclude : option (list string).
Variable widgets : option (gmap string string).

Local Abbreviation step := (fields_for_doc_step fields exclude widgets None).

(** Without an override, a field that is kept and cannot be translated stops
    the loop. *)
Lemma fields_for_doc_step_unsupported state name field :
  survives fields exclude name = true →
  mongofield_to_formfield field None = None →
  step state (name, field) = Raise (TypeError (unsupported_message field)).
Proof.
  unfold survives, fields_for_doc_step. intros [Hf He]%andb_true_iff Hnone.
  apply negb_true_iff in Hf, He. destruct state as [field_list ignored].
  rewrite Hf, He.
  by rewrite (mongofield_to_formfield_widget field None _ Hnone).
Qed.

(** A field that is filtered out, or that can be translated, lets it go on. *)
Lemma fields_for_doc_step_ok state name field :
  (survives fields exclude name = true →
   is_Some (mongofield_to_formfield field None)) →
  ∃ state', step state (name, field) = Ok state'.
Proof.
  unfold survives, fields_for_doc_step. intros Hsome.
  destruct state as [field_list ignored].
  destruct (given_and_not_in fields name) eqn:Hf; [by eauto|].
  destruct (and_in exclude name) eqn:He; [by eauto|].
  destruct (mongofield_to_formfield field (widgets ≫= _)) eqn:Hff.
  - simpl. eauto.
  - apply (mongofield_to_formfield_widget _ _ None) in Hff.
    destruct Hsome as [? Hsome]; [done|]. congruence.
Qed.

Lemma fields_for_doc_loop_ok items state :
  (∀ n f, (n, f) ∈ items → survives fields exclude n = true →
          is_Some (mongofield_to_formfield f None)) →
  ∃ state', for_each step items state = Ok state'.
Proof.
  revert state. induction items as [|[n f] items IH]; intros state Hok.
  { simpl. eauto. }
  destruct (fields_for_doc_step_ok state n f) as [state' Hstep].
  { apply Hok, list_elem_of_here. }
  cbn [for_each]. rewrite Hstep. simpl. apply IH.
  intros n' f' Hin. apply Hok. by apply list_elem_of_further.
Qed.

End Collector.

(** C8, as claimed, fails: the message is built from the descriptor alone,
    the field's name is not in it. *)
Lemma unsupported_message_lacks_name :
  ("tags", Sample.ListField) ∈ mongoengine._fields Sample.Post ∧
  survives None None "tags" = true ∧
  mongofield_to_formfield Sample.ListField None = None ∧
  ¬ names_field_and_descriptor "tags" Sample.ListField
      (fields_for_doc Sample.Post None None None None).
Proof.
  split; [apply list_elem_of_further, list_elem_of_here|].
  split; [reflexivity|]. split; [reflexivity|].
  intros (e & He & Hname & _). vm_compute in He. injection He as <-.
  vm_compute in Hname. discriminate.
Qed.

(** C8 (amended): without an override, when a field that is kept cannot be
    translated and every kept field declared before it can, the collector
    raises a [TypeError] whose message is the descriptor's text followed by
    a fixed sentence; the field's name is not part of it. *)
Theorem unsupported_field_raises (doc : mongoengine.doc_class)
    (fields exclude : option (list string))
    (widgets : option (gmap string string))
    (before after : list (string * mongoengine.BaseField))
    (name : string) (field : mongoengine.BaseField) :
  mongoengine._fields doc = before ++ (name, field) :: after →
  (∀ n f, (n, f) ∈ before → survives fields exclude n = true →
          is_Some (mongofield_to_formfield f None)) →
  survives fields exclude name = true →
  mongofield_to_formfield field None = None →
  fields_for_doc doc fields exclude widgets None =
    Raise (TypeError
             (mongoengine.str field +:+
              " is an unsupported field types at the moment, you should put it in the exclude list")) ∧
  is_substring (mongoengine.str field)
    (mongoengine.str field +:+
     " is an unsupported field types at the moment, you should put it in the exclude list")
  = true.
Proof.
  intros Hfields Hbefore Hkept Hnone. split; [|apply is_substring_append].
  unfold fields_for_doc, fields_for_doc_loop. rewrite Hfields, for_each_app.
  destruct (fields_for_doc_loop_ok fields exclude widgets before ([], []) Hbefore)
    as [state' ->].
  cbn [bind for_each].
  by rewrite fields_for_doc_step_unsupported.
Qed.

Lemma unsupported_field_raises_witness :
  fields_for_doc Sample.Post None (Some ["title"]) None None =
    Raise (TypeError
             "<mongoengine.fields.ListField object at 0x1> is an unsupported field types at the moment, you should put it in the exclude list").
Proof.
  apply (unsupported_field_raises Sample.Post None (Some ["title"]) None
           [("title", Sample.StringField)] [] "tags" Sample.ListField).
  - reflexivity.
  - intros n f Hin Hkept. apply list_elem_of_singleton in Hin as [= -> ->].
    vm_compute in Hkept. discriminate.
  - reflexivity.
  - reflexivity.
Defined.

(** With an include list, no exclude list and an override that ignores the
    e-mail field, the ignored name is recorded but stays a key of the result
    (bound to [None]); the include-list rule asks for ["name"] alone.  With a
    non-empty exclude list the same call drops it. *)
Lemma ignored_email_kept_without_exclude :
  fields_for_doc_loop Sample.User (Some ["name"; "email"]) None None
    (Some Sample.skip_email)
  = Ok ([("name", forms.with_length VNone VNone
                    (forms.plain forms.CharField [] None None false None))],
        ["email"]) ∧
  fields_for_doc Sample.User (Some ["name"; "email"]) None None
    (Some Sample.skip_email)
  = Ok [("name", Some (forms.with_length VNone VNone
                         (forms.plain forms.CharField [] None None false None)));
        ("email", None)] ∧
  include_list_keys ["name"; "email"] None ["email"] = ["name"] ∧
  fields_for_doc Sample.User (Some ["name"; "email"]) (Some ["id"]) None
    (Some Sample.skip_email)
  = Ok [("name", Some (forms.with_length VNone VNone
                         (forms.plain forms.CharField [] None None false None)))].
Proof. repeat split; reflexivity. Qed.

(** ** Ordered dictionaries keep their keys distinct *)

Section SortedDictFacts.

Context {V : Type}.
Implicit Types (d other : SortedDict.t V) (k key : string) (v : V).

Lemma SortedDict_keys_set_in d key v :
  key ∈ SortedDict.keys d →
  SortedDict.keys (SortedDict.set d key v) = SortedDict.keys d.
Proof.
  unfold SortedDict.keys. induction d as [|[k0 v0] d IH]; intros Hin.
  { by apply elem_of_nil in Hin. }
  simpl. destruct (String.eqb k0 key) eqn:E; [done|].
  apply String.eqb_neq in E. simpl in Hin.
  apply elem_of_cons in Hin as [-> | Hin]; [done|].
  simpl. f_equal. by apply IH.
Qed.

Lemma SortedDict_keys_set_fresh d key v :
  key ∉ SortedDict.keys d →
  SortedDict.keys (SortedDict.set d key v) = SortedDict.keys d ++ [key].
Proof.
  unfold SortedDict.keys. induction d as [|[k0 v0] d IH]; intros Hnin; [done|].
  simpl in *. apply not_elem_of_cons in Hnin as [Hne Hnin].
  destruct (String.eqb k0 key) eqn:E.
  { apply String.eqb_eq in E. congruence. }
  simpl. f_equal. by apply IH.
Qed.

Lemma SortedDict_set_NoDup d key v :
  NoDup (SortedDict.keys d) → NoDup (SortedDict.keys (SortedDict.set d key v)).
Proof.
  intros Hnd. destruct (decide (key ∈ SortedDict.keys d)) as [Hin | Hnin].
  - by rewrite SortedDict_keys_set_in.
  - rewrite SortedDict_keys_set_fresh by done.
    apply NoDup_app. split; [done|]. split; [|apply NoDup_singleton].
    intros x Hx ->%list_elem_of_singleton. done.
Qed.

Lemma SortedDict_elem_of_set d key v k' v' :
  NoDup (SortedDict.keys d) →
  (key, v) ∈ SortedDict.set d k' v' →
  (key = k' ∧ v = v') ∨ ((key, v) ∈ d ∧ key ≠ k').
Proof.
  unfold SortedDict.keys. induction d as [|[k0 v0] d IH]; simpl; intros Hnd Hin.
  { apply list_elem_of_singleton in Hin as [= -> ->]. by left. }
  apply NoDup_cons in Hnd as [Hfresh Hnd].
  destruct (String.eqb k0 k') eqn:E.
  - apply String.eqb_eq in E as ->.
    apply elem_of_cons in Hin as [[= -> ->] | Hin]; [by left|].
    right. split; [by apply list_elem_of_further|].
    intros ->. apply Hfresh, list_elem_of_fmap. by exists (k', v).
  - apply String.eqb_neq in E.
    apply elem_of_cons in Hin as [[= -> ->] | Hin].
    + right. split; [apply list_elem_of_here | done].
    + destruct (IH Hnd Hin) as [? | [? ?]]; [by left|].
      right. split; [by apply list_elem_of_further | done].
Qed.

Lemma SortedDict_update_NoDup d other :
  NoDup (SortedDict.keys d) → NoDup (SortedDict.keys (SortedDict.update d other)).
Proof.
  unfold SortedDict.update. revert d.
  induction other as [|[k v] other IH]; intros d Hnd; [done|].
  simpl. by apply IH, SortedDict_set_NoDup.
Qed.

Lemma SortedDict_elem_of_update d other key v :
  NoDup (SortedDict.keys d) →
  (key, v) ∈ SortedDict.update d other →
  (key, v) ∈ other ∨ ((key, v) ∈ d ∧ key ∉ SortedDict.keys other).
Proof.
  unfold SortedDict.update. revert d.
  induction other as [|[k' v'] other IH]; intros d Hnd Hin; simpl in *.
  { right. split; [done|]. apply not_elem_of_nil. }
  destruct (IH _ (SortedDict_set_NoDup d k' v' Hnd) Hin) as [Ho | [Hd Hk]].
  { left. by apply list_elem_of_further. }
  destruct (SortedDict_elem_of_set d key v k' v' Hnd Hd) as [[-> ->] | [Hd' Hne]].
  - left. apply list_elem_of_here.
  - right. split; [done|]. unfold SortedDict.keys in *. simpl.
    by apply not_elem_of_cons.
Qed.

Lemma SortedDict_of_list_NoDup (pairs : list (string * V)) :
  NoDup (SortedDict.keys (SortedDict.of_list pairs)).
Proof. apply SortedDict_update_NoDup. unfold SortedDict.keys. simpl. apply NoDup_nil_2. Qed.

Lemma SortedDict_elem_of_keys_set d key v k' :
  k' ∈ SortedDict.keys (SortedDict.set d key v) ↔ k' = key ∨ k' ∈ SortedDict.keys d.
Proof.
  destruct (decide (key ∈ SortedDict.keys d)) as [Hin | Hnin].
  - rewrite SortedDict_keys_set_in by done. split; [by right|].
    by intros [-> | ?].
  - rewrite SortedDict_keys_set_fresh, elem_of_app, list_elem_of_singleton by done.
    tauto.
Qed.

Lemma SortedDict_elem_of_keys_update d other k' :
  k' ∈ SortedDict.keys (SortedDict.update d other)
  ↔ k' ∈ SortedDict.keys d ∨ k' ∈ SortedDict.keys other.
Proof.
  unfold SortedDict.update. revert d.
  induction other as [|[k v] other IH]; intros d; cbn [foldl].
  - split; [by left|]. intros [? | Hin]; [done|].
    by apply elem_of_nil in Hin.
  - rewrite IH, SortedDict_elem_of_keys_set. split.
    + intros [[-> | ?] | ?]; [right; apply list_elem_of_here | by left |].
      right. by apply list_elem_of_further.
    + intros [? | Hin]; [by left; right|].
      apply elem_of_cons in Hin as [-> | ?]; [by left; left | by right].
Qed.

Lemma SortedDict_elem_of_keys_of_list (pairs : list (string * V)) k' :
  k' ∈ SortedDict.keys (SortedDict.of_list pairs) ↔ k' ∈ pairs.*1.
Proof.
  unfold SortedDict.of_list. rewrite SortedDict_elem_of_keys_update. split.
  - intros [Hin | ?]; [by apply elem_of_nil in Hin | done].
  - by right.
Qed.

End SortedDictFacts.

(** A name is bound at most once in the mapping the collector returns. *)
Lemma fields_for_doc_NoDup doc fields exclude widgets formfield_callback fd :
  fields_for_doc doc fields exclude widgets formfield_callback = Ok fd →
  NoDup (SortedDict.keys fd).
Proof.
  unfold fields_for_doc.
  destruct (fields_for_doc_loop _ _ _ _ _) as [[field_list ignored]|]; [|done].
  simpl. destruct (truthy_list fields); intros [= <-];
    apply SortedDict_of_list_NoDup.
Qed.

(** C2: without an exclude list every name of the include list is a key of
    the returned mapping, whether or not the override had it ignored; the
    test on the ignored names is only reached when an exclude list is given. *)
Theorem include_list_kept_without_exclude (doc : mongoengine.doc_class)
    (fields : list string) (exclude : option (list string))
    (widgets : option (gmap string string))
    (formfield_callback : option callback)
    (field_list : list (string * forms.Field)) (ignored : list string)
    (name : string) :
  truthy_list exclude = false →
  fields_for_doc_loop doc (Some fields) exclude widgets formfield_callback
    = Ok (field_list, ignored) →
  name ∈ fields →
  ∃ fd,
    fields_for_doc doc (Some fields) exclude widgets formfield_callback = Ok fd ∧
    name ∈ SortedDict.keys fd.
Proof.
  intros Hex Hloop Hin. unfold fields_for_doc. rewrite Hloop. cbn [bind].
  destruct fields as [|f0 fields']; [by apply elem_of_nil in Hin|].
  cbn [truthy_list default]. eexists. split; [reflexivity|].
  apply SortedDict_elem_of_keys_of_list.
  rewrite <- list_fmap_compose. apply list_elem_of_fmap. exists name.
  split; [done|]. apply list_elem_of_In, filter_In.
  split; [by apply list_elem_of_In|].
  unfold restrict_keeps. by rewrite Hex.
Qed.

Lemma include_list_kept_without_exclude_witness :
  "email" ∈ ["email"] ∧
  ∃ fd,
    fields_for_doc Sample.User (Some ["name"; "email"]) None None
      (Some Sample.skip_email) = Ok fd ∧
    "email" ∈ SortedDict.keys fd.
Proof.
  split; [apply list_elem_of_here|].
  apply (include_list_kept_without_exclude Sample.User ["name"; "email"] None
           None (Some Sample.skip_email)
           [("name", forms.with_length VNone VNone
                       (forms.plain forms.CharField [] None None false None))]
           ["email"] "email").
  - reflexivity.
  - reflexivity.
  - apply list_elem_of_further, list_elem_of_here.
Defined.

(** ** [DocFormMetaclass.__new__] *)

(** C6: when the mapping the collector returns binds a name to [None] and the
    name is not among the declared fields, class creation does fail, but with
    the [NameError] of the unbound [FieldError]: the message that names the
    fields and the document is built and never raised. *)
Theorem unknown_fields_raise_NameError (opts : DocFormOptions)
    (doc : mongoengine.doc_class) (declared : SortedDict.t forms.Field)
    (formfield_callback : option callback) (fd : field_dict) (name : string) :
  document opts = Some doc →
  fields_for_doc doc (fields opts) (exclude opts) (widgets opts)
                 formfield_callback = Ok fd →
  (name, None) ∈ fd →
  name ∉ SortedDict.keys declared →
  DocFormMetaclass_new true (Some opts) declared formfield_callback =
    Raise (NameError "global name 'FieldError' is not defined").
Proof.
  intros Hdoc Hfd Hin Hnot. unfold DocFormMetaclass_new. simpl.
  rewrite Hdoc, Hfd. simpl.
  rewrite bool_decide_eq_true_2; [done|].
  intros Hempty.
  assert (name ∈ (∅ : gset string)) as Hname; [|by apply not_elem_of_empty in Hname].
  rewrite <- Hempty. apply elem_of_difference. split.
  - apply elem_of_list_to_set, list_elem_of_fmap. exists (name, None).
    split; [done|]. apply list_elem_of_In, filter_In.
    split; [by apply list_elem_of_In | reflexivity].
  - by rewrite elem_of_list_to_set.
Qed.

Lemma unknown_fields_raise_NameError_witness :
  DocFormMetaclass_new true
    (Some (Sample.options Sample.User (Some ["name"; "phone"]) None)) [] None
  = Raise (NameError "global name 'FieldError' is not defined") ∧
  is_substring "phone" "global name 'FieldError' is not defined" = false ∧
  is_substring "User" "global name 'FieldError' is not defined" = false.
Proof.
  split; [|split; reflexivity].
  apply (unknown_fields_raise_NameError
           (Sample.options Sample.User (Some ["name"; "phone"]) None)
           Sample.User [] None
           [("name", Some (forms.with_length VNone VNone
                             (forms.plain forms.CharField [] None None false None)));
            ("phone", None)]
           "phone").
  - reflexivity.
  - reflexivity.
  - apply list_elem_of_further, list_elem_of_here.
  - apply not_elem_of_nil.
Defined.

Lemma keys_of_declared (declared : SortedDict.t forms.Field) :
  SortedDict.keys (prod_map id Some <$> declared) = SortedDict.keys declared.
Proof.
  unfold SortedDict.keys. induction declared as [|[k v] declared IH]; [done|].
  simpl. f_equal. apply IH.
Qed.

(** A class that is created has a form field under every name. *)
Lemma DocFormMetaclass_new_resolved Meta declared formfield_callback cls :
  DocFormMetaclass_new true Meta declared formfield_callback = Ok (DocFormClass cls) →
  ∀ name f, (name, f) ∈ base_fields cls → is_Some f.
Proof.
  unfold DocFormMetaclass_new. simpl.
  assert (∀ name f, (name, f) ∈ prod_map id Some <$> declared → is_Some f) as Hdecl.
  { intros name f ([k v] & [= -> ->] & _)%list_elem_of_fmap. by eexists. }
  destruct (Meta ≫= document) as [doc|]; cycle 1.
  { intros [= <-]. simpl. apply Hdecl. }
  destruct (fields_for_doc _ _ _ _ _) as [fd|] eqn:Hfd; [|done]. simpl.
  case_bool_decide as Hmissing; [done|].
  intros [= <-] name f Hin. simpl in Hin.
  apply SortedDict_elem_of_update in Hin as [Hin | [Hin Hnot]];
    [by eapply Hdecl | | by eapply fields_for_doc_NoDup].
  destruct f as [ff|]; [by eexists|]. exfalso.
  assert (name ∈ (∅ : gset string)) as Hname; [|by apply not_elem_of_empty in Hname].
  rewrite <- Hmissing. apply elem_of_difference. split.
  - apply elem_of_list_to_set, list_elem_of_fmap. exists (name, None).
    split; [done|]. apply list_elem_of_In, filter_In.
    split; [by apply list_elem_of_In | reflexivity].
  - rewrite elem_of_list_to_set. intros Hk. apply Hnot.
    by rewrite keys_of_declared.
Qed.

Lemma DocFormMetaclass_new_meta Meta declared formfield_callback cls :
  DocFormMetaclass_new true Meta declared formfield_callback = Ok (DocFormClass cls) →
  _meta cls = DocFormOptions_init Meta.
Proof.
  unfold DocFormMetaclass_new. simpl.
  destruct (Meta ≫= document) as [doc|]; [|by intros [= <-]].
  destruct (fields_for_doc _ _ _ _ _) as [fd|]; [|done]. simpl.
  case_bool_decide; [done|]. by intros [= <-].
Qed.

(** ** [doc_to_dict] *)

Section DocToDict.

Variable inst : mongoengine.instance.
Variables fields exclude : option (list string).

Local Abbreviation step := (doc_to_dict_step inst fields exclude).

Lemma doc_to_dict_loop_out items (acc : gmap string value) name :
  name ∉ items.*1 ∨ read_scope fields exclude name = false →
  foldl step acc items !! name = acc !! name.
Proof.
  revert acc. induction items as [|[n f] items IH]; intros acc Hout; [done|].
  cbn [foldl]. rewrite IH.
  - unfold doc_to_dict_step, read_scope in *.
    destruct (decide (n = name)) as [->|Hne].
    + destruct Hout as [Hout | Hout].
      { exfalso. apply Hout. simpl. apply list_elem_of_here. }
      apply andb_false_iff in Hout as [Hout | Hout].
      * apply negb_false_iff in Hout. by rewrite Hout.
      * apply negb_false_iff in Hout. rewrite Hout. by case_match.
    + repeat case_match; try done. by rewrite lookup_insert_ne.
  - destruct Hout as [Hout | Hout]; [left | by right].
    simpl in Hout. by apply not_elem_of_cons in Hout as [_ ?].
Qed.

Lemma doc_to_dict_loop_in items (acc : gmap string value) name :
  name ∈ items.*1 →
  read_scope fields exclude name = true →
  foldl step acc items !! name = Some (mongoengine.__get__ name inst).
Proof.
  intros Hin Hscope. revert acc Hin.
  induction items as [|[n f] items IH]; intros acc Hin.
  { by apply elem_of_nil in Hin. }
  cbn [foldl]. destruct (decide (name ∈ items.*1)) as [Hin' | Hnin].
  { by apply IH. }
  simpl in Hin. apply elem_of_cons in Hin as [<- | Hin]; [|done].
  rewrite doc_to_dict_loop_out by (by left).
  unfold doc_to_dict_step, read_scope in *.
  apply andb_true_iff in Hscope as [Hf He]. apply negb_true_iff in Hf, He.
  rewrite Hf, He. apply lookup_insert_eq.
Qed.

End DocToDict.

(** What [doc_to_dict] reads: the current value of every declared field that
    passes its tests, and nothing else. *)
Lemma doc_to_dict_lookup inst fields exclude name :
  doc_to_dict inst fields exclude !! name =
    if bool_decide (name ∈ (mongoengine._fields (mongoengine.__class__ inst)).*1)
       && read_scope fields exclude name
    then Some (mongoengine.__get__ name inst) else None.
Proof.
  unfold doc_to_dict. case_bool_decide as Hin; simpl.
  - destruct (read_scope fields exclude name) eqn:Hscope.
    + by apply doc_to_dict_loop_in.
    + rewrite doc_to_dict_loop_out by (by right). apply lookup_empty.
  - rewrite doc_to_dict_loop_out by (by left). apply lookup_empty.
Qed.

Lemma survives_read_scope fields exclude name :
  survives fields exclude name = true → read_scope fields exclude name = true.
Proof.
  unfold survives, read_scope, given_and_not_in.
  intros [Hf He]%andb_true_iff. rewrite He, andb_true_r.
  destruct fields as [[|x l]|]; simpl in *; done.
Qed.

(** For the empty include list the two disagree: [doc_to_dict] reads
    every field of the instance, while the collector keeps no name (as does
    [construct_instance], which writes nothing back). *)
Lemma empty_include_list_on_bob :
  doc_to_dict Sample.bob (Some []) None !! "name" = Some (VStr "Bob") ∧
  doc_to_dict Sample.bob (Some []) None !! "email" = Some (VStr "bob@example.org") ∧
  fields_for_doc Sample.User (Some []) None None None = Ok [] ∧
  construct_instance
    (Sample.cleaned_form Sample.bob {[ "name" := VStr "Rob" ]})
    Sample.bob (Some []) None = Sample.bob.
Proof. repeat split; reflexivity. Qed.

Lemma fields_for_doc_loop_empty_include exclude widgets formfield_callback items state :
  for_each (fields_for_doc_step (Some []) exclude widgets formfield_callback)
           items state = Ok state.
Proof.
  induction items as [|[n f] items IH]; [done|].
  cbn [for_each]. unfold fields_for_doc_step at 1. destruct state. simpl. apply IH.
Qed.

(** C9: for the empty include list the two disagree on every document:
    [doc_to_dict] reads each declared field that is not excluded, while the
    collector returns the empty mapping. *)
Theorem empty_include_list_disagrees (inst : mongoengine.instance)
    (exclude : option (list string)) (widgets : option (gmap string string))
    (formfield_callback : option callback) (name : string) :
  name ∈ (mongoengine._fields (mongoengine.__class__ inst)).*1 →
  and_in exclude name = false →
  doc_to_dict inst (Some []) exclude !! name
    = Some (mongoengine.__get__ name inst) ∧
  fields_for_doc (mongoengine.__class__ inst) (Some []) exclude widgets
                 formfield_callback = Ok [].
Proof.
  intros Hin Hex. split.
  - rewrite doc_to_dict_lookup, bool_decide_eq_true_2 by done.
    unfold read_scope. by rewrite Hex.
  - unfold fields_for_doc, fields_for_doc_loop.
    by rewrite fields_for_doc_loop_empty_include.
Qed.

Lemma empty_include_list_disagrees_witness :
  doc_to_dict Sample.bob (Some []) None !! "email"
    = Some (VStr "bob@example.org") ∧
  fields_for_doc Sample.User (Some []) None None None = Ok [].
Proof.
  apply (empty_include_list_disagrees Sample.bob None None None "email").
  - apply (bool_decide_unpack _). vm_compute. exact I.
  - reflexivity.
Defined.

(** ** The round trip *)

Lemma construct_instance_step_set cleaned_data fields exclude inst name field cleaned :
  cleaned_data !! name = Some cleaned →
  given_and_not_in fields name = false →
  and_in exclude name = false →
  construct_instance_step cleaned_data fields exclude inst (name, field)
  = mongoengine.__set__ name inst (written field cleaned).
Proof.
  unfold construct_instance_step, written. intros -> -> ->.
  by destruct (_ || _), (truthy cleaned).
Qed.

(** When every value the loop writes is the value the original instance
    holds, the attribute values stay those of the original. *)
Lemma construct_instance_loop_same cleaned_data fields exclude inst0 items inst :
  (∀ n f c, (n, f) ∈ items → cleaned_data !! n = Some c →
            given_and_not_in fields n = false → and_in exclude n = false →
            written f c = mongoengine.__get__ n inst0) →
  (∀ name, mongoengine.__get__ name inst = mongoengine.__get__ name inst0) →
  ∀ name,
    mongoengine.__get__ name
      (foldl (construct_instance_step cleaned_data fields exclude) inst items)
    = mongoengine.__get__ name inst0.
Proof.
  revert inst. induction items as [|[n f] items IH]; intros inst Hw Hsame; [done|].
  cbn [foldl]. apply IH.
  { intros n' f' c Hin. apply Hw. by apply list_elem_of_further. }
  intros name.
  destruct (cleaned_data !! n) as [c|] eqn:Hc;
    [|by rewrite construct_instance_step_skipped by (by left)].
  destruct (given_and_not_in fields n) eqn:Hf;
    [by rewrite construct_instance_step_skipped by (by right; left)|].
  destruct (and_in exclude n) eqn:He;
    [by rewrite construct_instance_step_skipped by (by right; right)|].
  rewrite (construct_instance_step_set _ _ _ _ _ _ c) by done.
  unfold mongoengine.__get__ at 1. simpl.
  destruct (decide (n = name)) as [->|Hne].
  - rewrite lookup_insert_eq. simpl. eapply Hw; [apply list_elem_of_here|done..].
  - rewrite lookup_insert_ne by done. apply Hsame.
Qed.

Section RoundTrip.

Variable clean : forms.Field → value → value + string.
Variable validate : mongoengine.instance → option (list (string * string)).

(** Cleaning that hands every submitted value back records no error and
    leaves in [cleaned_data] nothing but submitted values. *)
Lemma clean_fields_echo items self :
  (∀ name f, (name, f) ∈ items →
     ∃ field, f = Some field ∧
       clean field (default VNone (data self !! name))
       = inl (default VNone (data self !! name))) →
  (∀ name v, cleaned_data self !! name = Some v →
             v = default VNone (data self !! name)) →
  ∃ self',
    for_each (_clean_fields_step clean) items self = Ok self' ∧
    _errors self' = _errors self ∧ instance self' = instance self ∧
    form_meta self' = form_meta self ∧
    (∀ name v, cleaned_data self' !! name = Some v →
               v = default VNone (data self !! name)).
Proof.
  revert self. induction items as [|[n f] items IH]; intros self Hecho Hinv.
  { exists self. by repeat split. }
  destruct (Hecho n f) as (field & -> & Hclean); [apply list_elem_of_here|].
  cbn [for_each _clean_fields_step]. rewrite Hclean. cbn [bind].
  edestruct (IH (set_errors self (_errors self)
                   (<[n := default VNone (data self !! n)]> (cleaned_data self))))
    as (self' & Hrun & Herr & Hinst & Hmeta & Hinv').
  - intros name f Hin. apply Hecho. by apply list_elem_of_further.
  - simpl. intros name v. destruct (decide (n = name)) as [->|Hne].
    + rewrite lookup_insert_eq. by intros [= <-].
    + rewrite lookup_insert_ne by done. apply Hinv.
  - exists self'. by repeat split.
Qed.

(** C1 (amended): in the setting of a round trip, when moreover no URL or
    e-mail field in scope holds a falsy value other than [None], the round
    trip returns an instance whose values under the fields in scope are those
    of the original instance. *)
Theorem round_trip_preserves_settled_values (Meta : DocFormOptions)
    (declared : SortedDict.t forms.Field) (formfield_callback : option callback)
    (cls : form_class) (inst : mongoengine.instance) :
  round_trip_setting clean validate Meta declared formfield_callback cls inst →
  url_email_values_settled (fields Meta) (exclude Meta) inst →
  round_trip_preserves clean validate cls inst.
Proof.
  intros [Hcls Hdoc _ Hecho Hvalid] Hsettled.
  pose proof (DocFormMetaclass_new_meta _ _ _ _ Hcls) as Hmeta.
  pose proof (DocFormMetaclass_new_resolved _ _ _ _ Hcls) as Hres.
  assert (fields (_meta cls) = fields Meta) as Hf by (by rewrite Hmeta).
  assert (exclude (_meta cls) = exclude Meta) as He by (by rewrite Hmeta).
  unfold round_trip_preserves, round_trip. cbn [BaseDocForm_init bind initial].
  rewrite Hf, He. unfold full_clean. cbn [is_bound set_errors negb bool_decide].
  set (submitted := doc_to_dict inst (fields Meta) (exclude Meta)).
  rewrite bool_decide_eq_true_2 by (by eexists). cbn [negb form_fields].
  match goal with
  | |- context [for_each _ ?items ?s] =>
      destruct (clean_fields_echo items s)
        as (self' & -> & Herr & Hinst & Hfm & Hinv)
  end.
  { intros name f Hin. destruct (Hres name f Hin) as [field ->].
    exists field. split; [done|]. simpl. by apply Hecho. }
  { simpl. intros name v. by rewrite lookup_empty. }
  simpl in Herr, Hinst, Hfm, Hinv. cbn [bind].
  assert (∀ name,
            mongoengine.__get__ name
              (construct_instance self' (instance self')
                 (fields (form_meta self')) (exclude (form_meta self')))
            = mongoengine.__get__ name inst) as Hsame.
  { rewrite Hinst, Hfm, Hf, He. unfold construct_instance.
    apply construct_instance_loop_same; [|done].
    intros n f c Hin Hc Hfn Hen.
    assert (survives (fields Meta) (exclude Meta) n = true) as Hsurv.
    { unfold survives. by rewrite Hfn, Hen. }
    apply Hinv in Hc. unfold submitted in Hc.
    rewrite doc_to_dict_lookup, survives_read_scope in Hc by done.
    rewrite bool_decide_eq_true_2 in Hc
      by (apply list_elem_of_fmap; by exists (n, f)).
    simpl in Hc. subst c. unfold written.
    destruct (_ || _) eqn:Hurl; [|done].
    destruct (Hsettled n f Hin Hsurv Hurl) as [-> | ->]; done. }
  unfold _post_clean. cbn [instance set_instance].
  rewrite (Hvalid _ Hsame). cbn [bind].
  eexists. split.
  - unfold save, has_errors. cbn [instance set_instance _errors].
    rewrite Herr.
    rewrite (bool_decide_eq_false_2 (∅ ≠ ∅)) by (by intros ?).
    by destruct (mongoengine.is_EmbeddedDocument _).
  - intros name field _ _. apply Hsame.
Qed.

End RoundTrip.

(** C1, as claimed, fails for an e-mail field that holds the empty string:
    the empty string comes back from cleaning, and the write-back stores
    [None] in its place. *)
Lemma round_trip_loses_empty_email :
  round_trip_setting Sample.clean_echo Sample.validate_ok
    (Sample.options Sample.User None None) [] None Sample.UserForm Sample.ann ∧
  round_trip Sample.clean_echo Sample.validate_ok Sample.UserForm Sample.ann
  = Ok {| mongoengine.__class__ := Sample.User;
          mongoengine._data := {[ "name" := VStr "Ann"; "email" := VNone ]} |} ∧
  ¬ round_trip_preserves Sample.clean_echo Sample.validate_ok
      Sample.UserForm Sample.ann.
Proof.
  assert (round_trip Sample.clean_echo Sample.validate_ok Sample.UserForm Sample.ann
          = Ok {| mongoengine.__class__ := Sample.User;
                  mongoengine._data := {[ "name" := VStr "Ann"; "email" := VNone ]} |})
    as Hrun by (vm_compute; reflexivity).
  split; [|split; [exact Hrun|]].
  - split; try done.
    intros name field Hin _.
    repeat (apply elem_of_cons in Hin as [[= -> ->] | Hin]);
      [apply list_elem_of_here
      | do 8 apply list_elem_of_further; apply list_elem_of_here
      | by apply elem_of_nil in Hin].
  - intros (inst' & Hrt & Hsame). rewrite Hrun in Hrt. injection Hrt as <-.
    specialize (Hsame "email" Sample.EmailField).
    discriminate Hsame; [apply list_elem_of_further, list_elem_of_here | reflexivity].
Qed.

Lemma round_trip_preserves_settled_values_witness :
  round_trip_preserves Sample.clean_echo Sample.validate_ok
    Sample.UserForm Sample.bob.
Proof.
  apply (round_trip_preserves_settled_values Sample.clean_echo Sample.validate_ok
           (Sample.options Sample.User None None) [] None Sample.UserForm Sample.bob).
  - split; try done.
    intros name field Hin _.
    repeat (apply elem_of_cons in Hin as [[= -> ->] | Hin]);
      [apply list_elem_of_here
      | do 8 apply list_elem_of_further; apply list_elem_of_here
      | by apply elem_of_nil in Hin].
  - intros name field Hin _ _.
    repeat (apply elem_of_cons in Hin as [[= -> ->] | Hin]);
      [by right | by right | by apply elem_of_nil in Hin].
Defined.

(** ** Further facts *)

(** The [BooleanField] branch passes no validators either. *)
Lemma validation_dropped_for_boolean :
  mongofield_to_formfield
    (Sample.with_validation "check_flag" Sample.BooleanField) None
  = Some (forms.plain forms.BooleanField [] None None false None).
Proof. reflexivity. Qed.

(** Unless the include list is empty, [doc_to_dict] and the collector's loop
    apply the same tests. *)
Lemma read_scope_survives fields exclude name :
  fields ≠ Some [] →
  read_scope fields exclude name = survives fields exclude name.
Proof.
  unfold read_scope, survives, given_and_not_in. intros Hne.
  by destruct fields as [[|x l]|].
Qed.

(** An embedded document cannot be committed. *)
Lemma save_embedded_commit (self : form) :
  mongoengine.is_EmbeddedDocument (mongoengine.__class__ (instance self)) = true →
  save self true
  = Raise (ValueError "EmbeddedDocument doesn't support 'commit' paramiter.").
Proof. unfold save. by intros ->. Qed.

(** * Further properties of the module *)

(** ** The field translator *)

(** The translator gives up exactly on a descriptor that has no choices and
    whose class name is outside the table. *)
Theorem mongofield_to_formfield_None_iff (mongo_field : mongoengine.BaseField)
    (widget : option string) :
  mongofield_to_formfield mongo_field widget = None ↔
  truthy_list (mongoengine.choices mongo_field) = false ∧
  mongoengine.class_name mongo_field ∉ supported_kinds.
Proof.
  unfold mongofield_to_formfield, supported_kinds. split.
  - destruct (truthy_list _); [done|]. intros Hnone. split; [done|].
    repeat match type of Hnone with
           | context [String.eqb ?a ?b] =>
               destruct (String.eqb a b) eqn:?; [discriminate Hnone|]
           end.
    repeat match goal with
           | H : String.eqb _ _ = false |- _ => apply String.eqb_neq in H
           end.
    repeat (apply not_elem_of_cons; split; [done|]). apply not_elem_of_nil.
  - intros [-> Hk].
    repeat (apply not_elem_of_cons in Hk as [Hne Hk];
            apply String.eqb_neq in Hne; rewrite Hne; clear Hne).
    done.
Qed.

(** Whatever form field is made, it carries the widget that was passed and
    the descriptor's label, requiredness and help text. *)
Theorem mongofield_to_formfield_shared (mongo_field : mongoengine.BaseField)
    (widget : option string) (formfield : forms.Field) :
  mongofield_to_formfield mongo_field widget = Some formfield →
  forms.widget formfield = widget ∧
  forms.label formfield = mongoengine.verbose_name mongo_field ∧
  forms.required formfield = mongoengine.required mongo_field ∧
  forms.help_text formfield = mongoengine.help_text mongo_field.
Proof.
  unfold mongofield_to_formfield.
  destruct (truthy_list _); [by intros [= <-]|].
  repeat (destruct (String.eqb _ _); [by intros [= <-]|]). done.
Qed.

Lemma mongofield_to_formfield_shared_witness :
  ∃ formfield,
    mongofield_to_formfield Sample.colours (Some "RadioSelect") = Some formfield ∧
    forms.widget formfield = Some "RadioSelect" ∧
    forms.required formfield = false.
Proof.
  eexists. split; [reflexivity|].
  pose proof (mongofield_to_formfield_shared Sample.colours (Some "RadioSelect")
                _ eq_refl) as (Hw & _ & Hr & _).
  split; [exact Hw | exact Hr].
Defined.

(** ** More on ordered dictionaries *)

Section SortedDictMore.

Context {V : Type}.
Implicit Types (d other : SortedDict.t V) (k key : string) (v : V).

Lemma SortedDict_get_None d key :
  key ∉ SortedDict.keys d → SortedDict.get d key = None.
Proof.
  unfold SortedDict.keys. induction d as [|[k0 v0] d IH]; intros Hnin; [done|].
  simpl in *. apply not_elem_of_cons in Hnin as [Hne Hnin].
  destruct (String.eqb k0 key) eqn:E; [|by apply IH].
  apply String.eqb_eq in E. congruence.
Qed.

Lemma SortedDict_get_elem d key v :
  NoDup (SortedDict.keys d) → (key, v) ∈ d → SortedDict.get d key = Some v.
Proof.
  unfold SortedDict.keys. induction d as [|[k0 v0] d IH]; intros Hnd Hin.
  { by apply elem_of_nil in Hin. }
  simpl in *. apply NoDup_cons in Hnd as [Hfresh Hnd].
  apply elem_of_cons in Hin as [[= -> ->] | Hin].
  - by rewrite String.eqb_refl.
  - destruct (String.eqb k0 key) eqn:E; [|by apply IH].
    apply String.eqb_eq in E as ->. exfalso. apply Hfresh.
    apply list_elem_of_fmap. by exists (key, v).
Qed.

Lemma SortedDict_get_set_eq d key v :
  SortedDict.get (SortedDict.set d key v) key = Some v.
Proof.
  induction d as [|[k0 v0] d IH]; simpl.
  - by rewrite String.eqb_refl.
  - destruct (String.eqb k0 key) eqn:E; simpl; by rewrite ?E.
Qed.

Lemma SortedDict_get_set_ne d key v k' :
  k' ≠ key →
  SortedDict.get (SortedDict.set d key v) k' = SortedDict.get d k'.
Proof.
  intros Hne. induction d as [|[k0 v0] d IH]; simpl.
  - destruct (String.eqb key k') eqn:E; [|done].
    apply String.eqb_eq in E. congruence.
  - destruct (String.eqb k0 key) eqn:E; simpl.
    + apply String.eqb_eq in E as ->.
      destruct (String.eqb key k') eqn:E'; [|done].
      apply String.eqb_eq in E'. congruence.
    + by rewrite IH.
Qed.

Lemma SortedDict_get_update_other d other k' :
  k' ∉ SortedDict.keys other →
  SortedDict.get (SortedDict.update d other) k' = SortedDict.get d k'.
Proof.
  unfold SortedDict.update, SortedDict.keys. revert d.
  induction other as [|[k v] other IH]; intros d Hnin; [done|].
  simpl in *. apply not_elem_of_cons in Hnin as [Hne Hnin].
  rewrite IH by done. by apply SortedDict_get_set_ne.
Qed.

Lemma SortedDict_get_update d other key v :
  NoDup (SortedDict.keys other) → (key, v) ∈ other →
  SortedDict.get (SortedDict.update d other) key = Some v.
Proof.
  unfold SortedDict.update, SortedDict.keys. revert d.
  induction other as [|[k0 v0] other IH]; intros d Hnd Hin.
  { by apply elem_of_nil in Hin. }
  simpl in *. apply NoDup_cons in Hnd as [Hfresh Hnd].
  apply elem_of_cons in Hin as [[= <- <-] | Hin]; [|by apply IH].
  pose proof (SortedDict_get_update_other (SortedDict.set d key v) other key Hfresh)
    as Hother.
  unfold SortedDict.update in Hother. rewrite Hother.
  apply SortedDict_get_set_eq.
Qed.

Lemma SortedDict_set_fresh d key v :
  key ∉ SortedDict.keys d → SortedDict.set d key v = d ++ [(key, v)].
Proof.
  unfold SortedDict.keys. induction d as [|[k0 v0] d IH]; intros Hnin; [done|].
  simpl in *. apply not_elem_of_cons in Hnin as [Hne Hnin].
  destruct (String.eqb k0 key) eqn:E.
  { apply String.eqb_eq in E. congruence. }
  f_equal. by apply IH.
Qed.

(** Updating with fresh, distinct keys appends the pairs in their order. *)
Lemma SortedDict_update_fresh d other :
  NoDup (SortedDict.keys d ++ SortedDict.keys other) →
  SortedDict.update d other = d ++ other.
Proof.
  unfold SortedDict.update, SortedDict.keys. revert d.
  induction other as [|[k v] other IH]; intros d Hnd; simpl.
  { by rewrite app_nil_r. }
  simpl in Hnd. apply NoDup_app in Hnd as (Hd & Hdisj & Ho).
  apply NoDup_cons in Ho as [Hfresh Ho].
  rewrite SortedDict_set_fresh.
  2: { intros Hin. apply (Hdisj k Hin). apply list_elem_of_here. }
  rewrite IH; [by rewrite <- app_assoc|].
  rewrite fmap_app. simpl. apply NoDup_app. split; [|split; [|done]].
  - apply NoDup_app. split; [done|]. split; [|apply NoDup_singleton].
    intros x Hx ->%list_elem_of_singleton.
    apply (Hdisj k Hx). apply list_elem_of_here.
  - intros x [Hx | ->%list_elem_of_singleton]%elem_of_app; [|done].
    intros Hxo. apply (Hdisj x Hx). by apply list_elem_of_further.
Qed.

Lemma SortedDict_of_list_distinct (pairs : list (string * V)) :
  NoDup pairs.*1 → SortedDict.of_list pairs = pairs.
Proof.
  intros Hnd. unfold SortedDict.of_list.
  by rewrite SortedDict_update_fresh.
Qed.

End SortedDictMore.

(** ** More on [fields_for_doc] *)

Lemma filter_elem_of (p : string → bool) (l : list string) (x : string) :
  x ∈ List.filter p l ↔ x ∈ l ∧ p x = true.
Proof. by rewrite !list_elem_of_In, filter_In. Qed.

Lemma filter_NoDup (p : string → bool) (l : list string) :
  NoDup l → NoDup (List.filter p l).
Proof.
  induction l as [|x l IH]; intros Hnd; [done|].
  apply NoDup_cons in Hnd as [Hfresh Hnd]. simpl.
  destruct (p x); [|by apply IH].
  apply NoDup_cons. split; [|by apply IH].
  rewrite filter_elem_of. by intros [? _].
Qed.

Section CollectorMore.

Variables fields exclude : option (list string).
Variable widgets : option (gmap string string).

(** What one turn of the loop can do, whatever the override. *)
Lemma fields_for_doc_step_inv formfield_callback fl ig n f fl1 ig1 :
  fields_for_doc_step fields exclude widgets formfield_callback (fl, ig) (n, f)
    = Ok (fl1, ig1) →
  (fl1 = fl ∧ ig1 = ig) ∨
  (survives fields exclude n = true ∧
   ((∃ ff, fl1 = fl ++ [(n, ff)] ∧ ig1 = ig) ∨ (fl1 = fl ∧ ig1 = ig ++ [n]))).
Proof.
  unfold fields_for_doc_step, survives.
  destruct (given_and_not_in fields n); [intros [= <- <-]; by left|].
  destruct (and_in exclude n); [intros [= <- <-]; by left|].
  destruct formfield_callback as [[|g]|]; simpl.
  - done.
  - destruct (g f _) as [ff|]; intros [= <- <-]; right; (split; [done|]); eauto.
  - destruct (mongofield_to_formfield f _) as [ff|]; [|done].
    simpl. intros [= <- <-]. right. split; [done|]. eauto.
Qed.

(** Every name the loop collects or ignores is a declared name that passed
    the include/exclude tests. *)
Lemma fields_for_doc_loop_names formfield_callback items fl ig fl' ig' :
  for_each (fields_for_doc_step fields exclude widgets formfield_callback)
           items (fl, ig) = Ok (fl', ig') →
  (∀ n, n ∈ fl'.*1 → n ∈ fl.*1 ∨ (n ∈ items.*1 ∧ survives fields exclude n = true)) ∧
  (∀ n, n ∈ ig' → n ∈ ig ∨ (n ∈ items.*1 ∧ survives fields exclude n = true)).
Proof.
  revert fl ig. induction items as [|[n f] items IH]; intros fl ig Hrun.
  { injection Hrun as <- <-. split; intros ??; by left. }
  cbn [for_each] in Hrun.
  destruct (fields_for_doc_step _ _ _ _ (fl, ig) (n, f)) as [[fl1 ig1]|] eqn:Hstep;
    [|done].
  cbn [bind] in Hrun. destruct (IH _ _ Hrun) as [Hfl Hig].
  assert (∀ m, m ∈ items.*1 → m ∈ ((n, f) :: items).*1) as Hfurther.
  { intros m Hm. simpl. by apply list_elem_of_further. }
  assert (n ∈ ((n, f) :: items).*1) as Hhere by (simpl; apply list_elem_of_here).
  apply fields_for_doc_step_inv in Hstep
    as [[-> ->] | [Hs [(ff & -> & ->) | [-> ->]]]]; split; intros m Hm.
  - destruct (Hfl m Hm) as [? | [? ?]]; [by left | right; auto].
  - destruct (Hig m Hm) as [? | [? ?]]; [by left | right; auto].
  - destruct (Hfl m Hm) as [Hin | [? ?]]; [|right; auto].
    rewrite fmap_app in Hin.
    apply elem_of_app in Hin as [? | ->%list_elem_of_singleton];
      [by left | by right].
  - destruct (Hig m Hm) as [? | [? ?]]; [by left | right; auto].
  - destruct (Hfl m Hm) as [? | [? ?]]; [by left | right; auto].
  - destruct (Hig m Hm) as [Hin | [? ?]]; [|right; auto].
    apply elem_of_app in Hin as [? | ->%list_elem_of_singleton];
      [by left | by right].
Qed.

(** Without an override, a turn that does not raise appends the translation
    of a field that is kept and does nothing else. *)
Lemma fields_for_doc_step_plain_inv fl ig n f fl1 ig1 :
  fields_for_doc_step fields exclude widgets None (fl, ig) (n, f) = Ok (fl1, ig1) →
  ig1 = ig ∧
  ((survives fields exclude n = false ∧ fl1 = fl) ∨
   (survives fields exclude n = true ∧
    ∃ ff, mongofield_to_formfield f (widgets ≫= (λ w, w !! n)) = Some ff ∧
          fl1 = fl ++ [(n, ff)])).
Proof.
  unfold fields_for_doc_step, survives.
  destruct (given_and_not_in fields n); [intros [= <- <-]; split; [done|by left]|].
  destruct (and_in exclude n); [intros [= <- <-]; split; [done|by left]|].
  destruct (mongofield_to_formfield f _) as [ff|] eqn:Hff; [|done].
  simpl. intros [= <- <-]. split; [done|]. right. split; [done|]. eauto.
Qed.

Lemma fields_for_doc_loop_plain items fl ig fl' ig' :
  for_each (fields_for_doc_step fields exclude widgets None) items (fl, ig)
    = Ok (fl', ig') →
  ig' = ig ∧
  fl'.*1 = fl.*1 ++ List.filter (survives fields exclude) items.*1 ∧
  (∀ x, x ∈ fl → x ∈ fl') ∧
  (∀ n f, (n, f) ∈ items → survives fields exclude n = true →
     ∃ ff, mongofield_to_formfield f (widgets ≫= (λ w, w !! n)) = Some ff ∧
           (n, ff) ∈ fl').
Proof.
  revert fl ig. induction items as [|[n f] items IH]; intros fl ig Hrun.
  { injection Hrun as <- <-. repeat split; try done.
    - simpl. by rewrite app_nil_r.
    - intros ?? Hin. by apply elem_of_nil in Hin. }
  cbn [for_each] in Hrun.
  destruct (fields_for_doc_step _ _ _ _ (fl, ig) (n, f)) as [[fl1 ig1]|] eqn:Hstep;
    [|done].
  cbn [bind] in Hrun. destruct (IH _ _ Hrun) as (-> & Hkeys & Hmono & Hall).
  apply fields_for_doc_step_plain_inv in Hstep
    as [-> [[Hs ->] | [Hs (ff & Hff & ->)]]].
  - split; [done|]. split; [|split; [done|]].
    + rewrite Hkeys. simpl. by rewrite Hs.
    + intros m g Hin Hm.
      apply elem_of_cons in Hin as [[= -> ->] | Hin]; [congruence | eauto].
  - split; [done|]. split; [|split].
    + rewrite Hkeys, fmap_app. simpl. rewrite Hs. by rewrite <- app_assoc.
    + intros x Hx. apply Hmono, elem_of_app. by left.
    + intros m g Hin Hm. apply elem_of_cons in Hin as [[= -> ->] | Hin]; [|eauto].
      exists ff. split; [done|]. apply Hmono, elem_of_app. right.
      apply list_elem_of_here.
Qed.

(** With a callable override the loop never raises. *)
Lemma fields_for_doc_loop_callable g items state :
  ∃ state',
    for_each (fields_for_doc_step fields exclude widgets (Some (Callable g)))
             items state = Ok state'.
Proof.
  revert state. induction items as [|[n f] items IH]; intros [fl ig].
  { simpl. eauto. }
  cbn [for_each]. unfold fields_for_doc_step at 1.
  destruct (given_and_not_in fields n); [apply IH|].
  destruct (and_in exclude n); [apply IH|].
  simpl. destruct (g f _); apply IH.
Qed.

(** An override that cannot be called stops the loop at the first field that
    is kept. *)
Lemma fields_for_doc_loop_not_callable items state :
  (∃ n, n ∈ items.*1 ∧ survives fields exclude n = true) →
  for_each (fields_for_doc_step fields exclude widgets (Some NotCallable))
           items state
  = Raise (TypeError "formfiled_callback must be a function or callable").
Proof.
  intros (m & Hin & Hm). revert state Hin.
  induction items as [|[n f] items IH]; intros [fl ig] Hin.
  { by apply elem_of_nil in Hin. }
  cbn [for_each]. unfold fields_for_doc_step at 1.
  unfold survives in *. simpl in Hin.
  destruct (given_and_not_in fields n) eqn:Hf.
  { cbn [bind]. apply IH. apply elem_of_cons in Hin as [-> | ?]; [|done].
    by rewrite Hf in Hm. }
  destruct (and_in exclude n) eqn:He; [|done].
  cbn [bind]. apply IH. apply elem_of_cons in Hin as [-> | ?]; [|done].
  by rewrite Hf, He in Hm.
Qed.

End CollectorMore.

Lemma SortedDict_elem_of_of_list {V : Type} (pairs : list (string * V)) k v :
  (k, v) ∈ SortedDict.of_list pairs → (k, v) ∈ pairs.
Proof.
  unfold SortedDict.of_list. intros Hin.
  apply SortedDict_elem_of_update in Hin as [? | [Hin _]]; [done | |].
  - by apply elem_of_nil in Hin.
  - unfold SortedDict.keys. simpl. apply NoDup_nil_2.
Qed.

Lemma keys_of_field_list (field_list : list (string * forms.Field)) :
  (prod_map id Some <$> field_list).*1 = field_list.*1.
Proof.
  induction field_list as [|[k v] l IH]; [done|]. simpl. f_equal. apply IH.
Qed.

Lemma keys_of_restriction {V : Type} (g : string → V) (l : list string) :
  ((λ f, (f, g f)) <$> l).*1 = l.
Proof. induction l as [|x l IH]; [done|]. simpl. f_equal. apply IH. Qed.

(** The mapping the collector returns binds no name twice, whatever the
    include list (which may repeat names) and the override. *)
Theorem fields_for_doc_names_distinct (doc : mongoengine.doc_class)
    (fields exclude : option (list string))
    (widgets : option (gmap string string))
    (formfield_callback : option callback) (fd : field_dict) :
  fields_for_doc doc fields exclude widgets formfield_callback = Ok fd →
  NoDup (SortedDict.keys fd).
Proof.
  unfold fields_for_doc.
  destruct (fields_for_doc_loop _ _ _ _ _) as [[field_list ignored]|]; [|done].
  cbn [bind]. destruct (truthy_list fields); intros [= <-];
    apply SortedDict_of_list_NoDup.
Qed.

Lemma fields_for_doc_names_distinct_witness :
  NoDup ["email"; "name"].
Proof.
  apply (fields_for_doc_names_distinct Sample.User
           (Some ["email"; "name"; "email"]) None None None
           [("email", Some (forms.plain forms.EmailField [] None None false None));
            ("name", Some (forms.with_length VNone VNone
                             (forms.plain forms.CharField [] None None false None)))]).
  reflexivity.
Defined.

(** Exclusion wins: a name of the exclude list is never a key of the
    returned mapping, even when the include list names it. *)
Theorem fields_for_doc_excluded_absent (doc : mongoengine.doc_class)
    (fields : option (list string)) (excluded : list string)
    (widgets : option (gmap string string))
    (formfield_callback : option callback) (fd : field_dict) (name : string) :
  fields_for_doc doc fields (Some excluded) widgets formfield_callback = Ok fd →
  name ∈ excluded →
  name ∉ SortedDict.keys fd.
Proof.
  intros Hrun Hex. unfold fields_for_doc, fields_for_doc_loop in Hrun.
  destruct (for_each _ _ _) as [[field_list ignored]|] eqn:Hloop; [|done].
  cbn [bind] in Hrun.
  assert (and_in (Some excluded) name = true) as Hand.
  { apply and_in_true. eauto. }
  destruct (truthy_list fields); injection Hrun as <-;
    rewrite SortedDict_elem_of_keys_of_list.
  - rewrite keys_of_restriction, filter_elem_of. intros [_ Hkeep].
    unfold restrict_keeps in Hkeep. unfold and_in in Hand.
    apply andb_true_iff in Hand as [Ht Hin]. rewrite Ht in Hkeep. simpl in Hkeep.
    by rewrite Hin in Hkeep.
  - rewrite keys_of_field_list. intros Hin.
    apply fields_for_doc_loop_names in Hloop as [Hfl _].
    destruct (Hfl name Hin) as [Hnil | [_ Hs]]; [by apply elem_of_nil in Hnil|].
    unfold survives in Hs. rewrite Hand in Hs. by rewrite andb_false_r in Hs.
Qed.

Lemma fields_for_doc_excluded_absent_witness :
  "email" ∉ ["name"].
Proof.
  apply (fields_for_doc_excluded_absent Sample.User (Some ["name"; "email"])
           ["email"] None None
           [("name", Some (forms.with_length VNone VNone
                             (forms.plain forms.CharField [] None None false None)))]
           "email").
  - reflexivity.
  - apply list_elem_of_here.
Defined.

(** Without an include list and without an override, a call that returns
    yields the declared names that are not excluded, in declaration order,
    each bound to the translation of its descriptor made with the widget
    registered for that name. *)
Theorem fields_for_doc_declaration_order (doc : mongoengine.doc_class)
    (fields exclude : option (list string))
    (widgets : option (gmap string string)) (fd : field_dict) :
  truthy_list fields = false →
  NoDup (mongoengine._fields doc).*1 →
  fields_for_doc doc fields exclude widgets None = Ok fd →
  SortedDict.keys fd
    = List.filter (survives fields exclude) (mongoengine._fields doc).*1 ∧
  ∀ name field,
    (name, field) ∈ mongoengine._fields doc →
    survives fields exclude name = true →
    ∃ formfield,
      mongofield_to_formfield field (widgets ≫= (λ w, w !! name)) = Some formfield ∧
      SortedDict.get fd name = Some (Some formfield).
Proof.
  intros Hfields Hnd Hrun. unfold fields_for_doc, fields_for_doc_loop in Hrun.
  destruct (for_each _ _ _) as [[field_list ignored]|] eqn:Hloop; [|done].
  cbn [bind] in Hrun. rewrite Hfields in Hrun. injection Hrun as <-.
  apply fields_for_doc_loop_plain in Hloop as (_ & Hkeys & _ & Hall).
  simpl in Hkeys.
  assert (NoDup (prod_map id Some <$> field_list).*1) as Hnd'.
  { rewrite keys_of_field_list, Hkeys. by apply filter_NoDup. }
  rewrite SortedDict_of_list_distinct by done. split.
  - unfold SortedDict.keys. by rewrite keys_of_field_list.
  - intros name field Hin Hs. destruct (Hall name field Hin Hs) as (ff & Hff & Hfl).
    exists ff. split; [done|]. apply SortedDict_get_elem; [done|].
    apply list_elem_of_fmap. by exists (name, ff).
Qed.

Lemma fields_for_doc_declaration_order_witness :
  SortedDict.keys
    [("name", Some (forms.with_length VNone VNone
                      (forms.plain forms.CharField [] (Some "Textarea") None false None)))]
  = List.filter (survives None (Some ["email"])) ["name"; "email"].
Proof.
  apply (fields_for_doc_declaration_order Sample.User None (Some ["email"])
           (Some {[ "name" := "Textarea" ]})).
  - reflexivity.
  - apply (bool_decide_unpack _). vm_compute. exact I.
  - reflexivity.
Defined.

(** With an include list of distinct names and without an override, a call
    that returns yields the names of the include list that are not excluded,
    in the include list's order. *)
Theorem fields_for_doc_include_order (doc : mongoengine.doc_class)
    (included : list string) (exclude : option (list string))
    (widgets : option (gmap string string)) (fd : field_dict) :
  included ≠ [] →
  NoDup included →
  fields_for_doc doc (Some included) exclude widgets None = Ok fd →
  SortedDict.keys fd = List.filter (λ f, negb (and_in exclude f)) included.
Proof.
  intros Hne Hnd Hrun. unfold fields_for_doc, fields_for_doc_loop in Hrun.
  destruct (for_each _ _ _) as [[field_list ignored]|] eqn:Hloop; [|done].
  cbn [bind] in Hrun.
  apply fields_for_doc_loop_plain in Hloop as (-> & _).
  assert (truthy_list (Some included) = true) as Ht by (by destruct included).
  rewrite Ht in Hrun. change (default [] (Some included)) with included in Hrun.
  injection Hrun as <-.
  assert (∀ l, List.filter (restrict_keeps exclude []) l
               = List.filter (λ f, negb (and_in exclude f)) l) as Hsame.
  { intros l. apply filter_ext. intros f. unfold restrict_keeps, and_in, py_in.
    destruct exclude as [[|x e]|]; simpl; try done.
    by rewrite andb_true_r. }
  rewrite Hsame. rewrite SortedDict_of_list_distinct.
  - unfold SortedDict.keys. by rewrite keys_of_restriction.
  - rewrite keys_of_restriction. by apply filter_NoDup.
Qed.

Lemma fields_for_doc_include_order_witness :
  SortedDict.keys
    [("email", Some (forms.plain forms.EmailField [] None None false None));
     ("phone", None)]
  = ["email"; "phone"].
Proof.
  apply (fields_for_doc_include_order Sample.User ["email"; "name"; "phone"]
           (Some ["name"]) None).
  - discriminate.
  - apply (bool_decide_unpack _). vm_compute. exact I.
  - reflexivity.
Defined.

(** A callable override is trusted: the collector never raises, not even on
    descriptors the translator does not know. *)
Theorem fields_for_doc_override_never_raises (doc : mongoengine.doc_class)
    (fields exclude : option (list string))
    (widgets : option (gmap string string))
    (g : mongoengine.BaseField → option string → option forms.Field) :
  ∃ fd, fields_for_doc doc fields exclude widgets (Some (Callable g)) = Ok fd.
Proof.
  unfold fields_for_doc, fields_for_doc_loop.
  destruct (fields_for_doc_loop_callable fields exclude widgets g
              (mongoengine._fields doc) ([], [])) as [[fl ig] ->].
  cbn [bind]. destruct (truthy_list fields); eauto.
Qed.

(** An override that is not callable is reported as soon as one declared
    field passes the include/exclude tests. *)
Theorem fields_for_doc_override_not_callable (doc : mongoengine.doc_class)
    (fields exclude : option (list string))
    (widgets : option (gmap string string)) (name : string) :
  name ∈ (mongoengine._fields doc).*1 →
  survives fields exclude name = true →
  fields_for_doc doc fields exclude widgets (Some NotCallable)
  = Raise (TypeError "formfiled_callback must be a function or callable").
Proof.
  intros Hin Hs. unfold fields_for_doc, fields_for_doc_loop.
  rewrite fields_for_doc_loop_not_callable; [done|]. eauto.
Qed.

Lemma fields_for_doc_override_not_callable_witness :
  fields_for_doc Sample.Post None (Some ["title"]) None (Some NotCallable)
  = Raise (TypeError "formfiled_callback must be a function or callable").
Proof.
  apply (fields_for_doc_override_not_callable Sample.Post None (Some ["title"])
           None "tags").
  - apply (bool_decide_unpack _). vm_compute. exact I.
  - reflexivity.
Defined.

(** A name of the include list that the document does not declare, and that
    is not excluded, stays in the returned mapping, bound to [None]. *)
Theorem fields_for_doc_unknown_name (doc : mongoengine.doc_class)
    (included : list string) (exclude : option (list string))
    (widgets : option (gmap string string))
    (formfield_callback : option callback) (fd : field_dict) (name : string) :
  fields_for_doc doc (Some included) exclude widgets formfield_callback = Ok fd →
  name ∈ included →
  name ∉ (mongoengine._fields doc).*1 →
  and_in exclude name = false →
  (name, None) ∈ fd.
Proof.
  intros Hrun Hin Hunknown Hex. unfold fields_for_doc, fields_for_doc_loop in Hrun.
  destruct (for_each _ _ _) as [[field_list ignored]|] eqn:Hloop; [|done].
  cbn [bind] in Hrun.
  apply fields_for_doc_loop_names in Hloop as [Hfl Hig].
  assert (truthy_list (Some included) = true) as Ht.
  { destruct included; [by apply elem_of_nil in Hin | done]. }
  rewrite Ht in Hrun. change (default [] (Some included)) with included in Hrun.
  injection Hrun as <-.
  assert (restrict_keeps exclude ignored name = true) as Hkeep.
  { unfold restrict_keeps, and_in, py_in in *.
    destruct exclude as [[|x e]|]; simpl in *; try done.
    rewrite Hex. simpl. apply negb_true_iff, bool_decide_eq_false.
    intros Hi. destruct (Hig name Hi) as [Hnil | [? _]]; [|done].
    by apply elem_of_nil in Hnil. }
  match goal with
  | |- _ ∈ SortedDict.of_list (?h <$> ?l) =>
      assert (name ∈ SortedDict.keys (SortedDict.of_list (h <$> l))) as Hkey
  end.
  { rewrite SortedDict_elem_of_keys_of_list, keys_of_restriction, filter_elem_of.
    done. }
  unfold SortedDict.keys in Hkey.
  apply list_elem_of_fmap in Hkey as ([k v] & -> & Hkv). simpl.
  pose proof (SortedDict_elem_of_of_list _ _ _ Hkv) as Hpair.
  apply list_elem_of_fmap in Hpair as (f & [= -> ->] & _).
  rewrite SortedDict_get_None in Hkv; [done|].
  rewrite SortedDict_elem_of_keys_of_list, keys_of_field_list.
  intros Hi. destruct (Hfl f Hi) as [Hnil | [? _]]; [|done].
  by apply elem_of_nil in Hnil.
Qed.

Lemma fields_for_doc_unknown_name_witness :
  ("phone", None) ∈
    [("name", Some (forms.with_length VNone VNone
                      (forms.plain forms.CharField [] None None false None)));
     ("phone", (None : option forms.Field))].
Proof.
  apply (fields_for_doc_unknown_name Sample.User ["name"; "phone"] None None None
           _ "phone").
  - reflexivity.
  - apply list_elem_of_further, list_elem_of_here.
  - apply (bool_decide_unpack _). vm_compute. exact I.
  - reflexivity.
Defined.

(** ** More on [DocFormMetaclass.__new__] *)

Lemma SortedDict_keys_update {V : Type} (d other : SortedDict.t V) :
  NoDup (SortedDict.keys other) →
  SortedDict.keys (SortedDict.update d other)
  = SortedDict.keys d
    ++ List.filter (λ k, negb (bool_decide (k ∈ SortedDict.keys d)))
                   (SortedDict.keys other).
Proof.
  unfold SortedDict.update. revert d.
  induction other as [|[k v] other IH]; intros d Hnd; cbn [foldl fst snd].
  { simpl. by rewrite app_nil_r. }
  change (SortedDict.keys ((k, v) :: other)) with (k :: SortedDict.keys other) in *.
  apply NoDup_cons in Hnd as [Hfresh Hnd]. rewrite IH by done.
  cbn [List.filter].
  destruct (decide (k ∈ SortedDict.keys d)) as [Hin | Hnin].
  - rewrite SortedDict_keys_set_in by done.
    by rewrite (bool_decide_eq_true_2 _ Hin).
  - rewrite SortedDict_keys_set_fresh by done.
    rewrite (bool_decide_eq_false_2 _ Hnin). cbn [negb].
    rewrite <- app_assoc. cbn [app]. do 2 f_equal.
    apply filter_ext_in. intros x Hx. f_equal.
    apply bool_decide_ext. rewrite elem_of_app, list_elem_of_singleton.
    split; [|by left]. intros [? | ->]; [done|].
    exfalso. apply Hfresh. by apply list_elem_of_In.
Qed.

(** In a class that was created, every name of the field mapping is bound
    to a form field: no [None] is left. *)
Theorem DocForm_class_fields_resolved (Meta : option DocFormOptions)
    (declared : SortedDict.t forms.Field) (formfield_callback : option callback)
    (cls : form_class) (name : string) (f : option forms.Field) :
  DocFormMetaclass_new true Meta declared formfield_callback
    = Ok (DocFormClass cls) →
  (name, f) ∈ base_fields cls →
  is_Some f.
Proof. intros Hcls. by apply (DocFormMetaclass_new_resolved _ _ _ _ Hcls). Qed.

Lemma DocForm_class_fields_resolved_witness :
  is_Some (Some (forms.plain forms.EmailField [] None None false None)).
Proof.
  apply (DocForm_class_fields_resolved
           (Some (Sample.options Sample.User None None)) [] None
           Sample.UserForm "email").
  - reflexivity.
  - apply list_elem_of_further, list_elem_of_here.
Defined.

(** Declared fields win: in a class that was created, a name declared on the
    form is bound to the declared field, whatever the document gave it. *)
Theorem DocForm_class_declared_wins (Meta : option DocFormOptions)
    (declared : SortedDict.t forms.Field) (formfield_callback : option callback)
    (cls : form_class) (name : string) (field : forms.Field) :
  DocFormMetaclass_new true Meta declared formfield_callback
    = Ok (DocFormClass cls) →
  NoDup (SortedDict.keys declared) →
  (name, field) ∈ declared →
  SortedDict.get (base_fields cls) name = Some (Some field).
Proof.
  unfold DocFormMetaclass_new. simpl. intros Hcls Hnd Hin.
  assert (NoDup (SortedDict.keys (prod_map id Some <$> declared))) as Hnd'
    by (by rewrite keys_of_declared).
  assert ((name, Some field) ∈ prod_map id Some <$> declared) as Hin'.
  { apply list_elem_of_fmap. by exists (name, field). }
  destruct (Meta ≫= document) as [doc|].
  - destruct (fields_for_doc _ _ _ _ _) as [fd|]; [|done]. simpl in Hcls.
    case_bool_decide; [done|]. injection Hcls as <-. simpl.
    by apply SortedDict_get_update.
  - injection Hcls as <-. simpl. by apply SortedDict_get_elem.
Qed.

Lemma DocForm_class_declared_wins_witness :
  ∃ cls,
    DocFormMetaclass_new true (Some (Sample.options Sample.User None None))
      [("email", forms.plain forms.CharField [] (Some "Textarea") None true None)]
      None = Ok (DocFormClass cls) ∧
    SortedDict.get (base_fields cls) "email"
    = Some (Some (forms.plain forms.CharField [] (Some "Textarea") None true None)).
Proof.
  eexists. split; [reflexivity|].
  apply (DocForm_class_declared_wins
           (Some (Sample.options Sample.User None None))
           [("email", forms.plain forms.CharField [] (Some "Textarea") None true None)]
           None _ "email").
  - reflexivity.
  - apply (bool_decide_unpack _). vm_compute. exact I.
  - apply list_elem_of_here.
Defined.

(** The order of a created class's fields: the names the collector returned,
    in its order, then the declared names it did not return, in declaration
    order; a name that is not declared keeps the field the collector made. *)
Theorem DocForm_class_field_order (opts : DocFormOptions)
    (doc : mongoengine.doc_class) (declared : SortedDict.t forms.Field)
    (formfield_callback : option callback) (fd : field_dict) (cls : form_class) :
  document opts = Some doc →
  fields_for_doc doc (fields opts) (exclude opts) (widgets opts)
                 formfield_callback = Ok fd →
  NoDup (SortedDict.keys declared) →
  DocFormMetaclass_new true (Some opts) declared formfield_callback
    = Ok (DocFormClass cls) →
  SortedDict.keys (base_fields cls)
  = SortedDict.keys fd
    ++ List.filter (λ k, negb (bool_decide (k ∈ SortedDict.keys fd)))
                   (SortedDict.keys declared) ∧
  ∀ name, name ∉ SortedDict.keys declared →
          SortedDict.get (base_fields cls) name = SortedDict.get fd name.
Proof.
  intros Hdoc Hfd Hnd. unfold DocFormMetaclass_new. simpl.
  rewrite Hdoc, Hfd. simpl. case_bool_decide; [done|]. intros [= <-]. simpl.
  split.
  - rewrite SortedDict_keys_update by (by rewrite keys_of_declared).
    by rewrite keys_of_declared.
  - intros name Hnot. apply SortedDict_get_update_other.
    by rewrite keys_of_declared.
Qed.

Lemma DocForm_class_field_order_witness :
  ∃ cls,
    DocFormMetaclass_new true (Some (Sample.options Sample.User None None))
      [("captcha", forms.plain forms.CharField [] None None true None);
       ("name", forms.plain forms.CharField [] (Some "Textarea") None true None)]
      None = Ok (DocFormClass cls) ∧
    SortedDict.keys (base_fields cls) = ["name"; "email"; "captcha"].
Proof.
  eexists. split; [reflexivity|].
  apply (DocForm_class_field_order (Sample.options Sample.User None None)
           Sample.User
           [("captcha", forms.plain forms.CharField [] None None true None);
            ("name", forms.plain forms.CharField [] (Some "Textarea") None true None)]
           None
           [("name", Some (forms.with_length VNone VNone
                             (forms.plain forms.CharField [] None None false None)));
            ("email", Some (forms.plain forms.EmailField [] None None false None))]).
  - reflexivity.
  - reflexivity.
  - apply (bool_decide_unpack _). vm_compute. exact I.
  - reflexivity.
Defined.

(** An error of the collector ends class creation, whatever is declared on
    the form: declaring a field by hand does not rescue a descriptor the
    translator does not know; it has to be excluded or overridden. *)
Theorem DocForm_class_collector_error (opts : DocFormOptions)
    (doc : mongoengine.doc_class) (declared : SortedDict.t forms.Field)
    (formfield_callback : option callback) (e : exn) :
  document opts = Some doc →
  fields_for_doc doc (fields opts) (exclude opts) (widgets opts)
                 formfield_callback = Raise e →
  DocFormMetaclass_new true (Some opts) declared formfield_callback = Raise e.
Proof.
  intros Hdoc Hfd. unfold DocFormMetaclass_new. simpl. by rewrite Hdoc, Hfd.
Qed.

Lemma DocForm_class_collector_error_witness :
  DocFormMetaclass_new true (Some (Sample.options Sample.Post None None))
    [("tags", forms.plain forms.CharField [] None None false None)] None
  = Raise (TypeError
             "<mongoengine.fields.ListField object at 0x1> is an unsupported field types at the moment, you should put it in the exclude list").
Proof.
  apply (DocForm_class_collector_error (Sample.options Sample.Post None None)
           Sample.Post
           [("tags", forms.plain forms.CharField [] None None false None)] None).
  - reflexivity.
  - reflexivity.
Defined.

(** ** More on [doc_to_dict] and [BaseDocForm.__init__] *)

(** [doc_to_dict] returns the current value of each declared field that
    passes its tests, and binds no other name; in particular an excluded
    name is absent even when the include list names it. *)
Theorem doc_to_dict_reads (inst : mongoengine.instance)
    (fields exclude : option (list string)) (name : string) (v : value) :
  doc_to_dict inst fields exclude !! name = Some v ↔
  name ∈ (mongoengine._fields (mongoengine.__class__ inst)).*1 ∧
  read_scope fields exclude name = true ∧
  v = mongoengine.__get__ name inst.
Proof.
  rewrite doc_to_dict_lookup. case_bool_decide as Hin; simpl.
  - destruct (read_scope fields exclude name).
    + split; [by intros [= <-] | by intros (_ & _ & ->)].
    + split; [done | by intros (_ & ? & _)].
  - split; [done | by intros (? & _)].
Qed.

(** A form made for an instance is bound to that very instance, has no
    error state yet, and shows, under each name, the caller's initial value
    when there is one and what [doc_to_dict] read otherwise. *)
Theorem BaseDocForm_init_initial (cls : form_class)
    (data overrides : option (gmap string value))
    (inst : mongoengine.instance) :
  ∃ self,
    BaseDocForm_init cls data overrides (Some inst) = Ok self ∧
    instance self = inst ∧ _errors self = None ∧
    form_fields self = base_fields cls ∧
    ∀ name,
      initial self !! name =
        match overrides ≫= (λ i, i !! name) with
        | Some v => Some v
        | None => doc_to_dict inst (fields (_meta cls)) (exclude (_meta cls)) !! name
        end.
Proof.
  unfold BaseDocForm_init. cbn [bind]. eexists. split; [reflexivity|].
  repeat split. intros name. simpl.
  destruct overrides as [i|]; simpl; [|done].
  rewrite lookup_union. by destruct (i !! name), (doc_to_dict _ _ _ !! name).
Qed.

(** ** [_update_errors] *)

Section UpdateErrors.

(** The body of the loop over [message_dict.items()]. *)
Local Abbreviation errors_step :=
  (λ (state : gmap string (list string) * gmap string value)
     (item : string * string),
     let '(k, message) := item in
     if String.eqb k NON_FIELD_ERRORS then state
     else
       (append_error state.1 k
          (message_or message ("MongoEngine data valid failed in " +:+ k +:+ "!")),
        delete k state.2)).

Implicit Types (md : list (string * string)).
Implicit Types (e : gmap string (list string)) (c : gmap string value).

Lemma errors_loop_frame md e c k :
  k ∉ md.*1 ∨ k = NON_FIELD_ERRORS →
  (foldl errors_step (e, c) md).1 !! k = e !! k ∧
  (foldl errors_step (e, c) md).2 !! k = c !! k.
Proof.
  revert e c. induction md as [|[k0 m0] md IH]; intros e c Hk; [done|].
  cbn [foldl fst snd]. assert (k ∉ md.*1 ∨ k = NON_FIELD_ERRORS) as Hk'.
  { destruct Hk as [Hk | ?]; [left | by right].
    simpl in Hk. by apply not_elem_of_cons in Hk as [_ ?]. }
  destruct (String.eqb k0 NON_FIELD_ERRORS) eqn:E; [by apply IH|].
  apply String.eqb_neq in E.
  destruct (IH (append_error e k0
                  (message_or m0 ("MongoEngine data valid failed in " +:+ k0 +:+ "!")))
               (delete k0 c) Hk') as [-> ->].
  assert (k0 ≠ k) as Hne.
  { destruct Hk as [Hk | ->]; [|done]. simpl in Hk.
    apply not_elem_of_cons in Hk as [? _]. congruence. }
  unfold append_error. simpl.
  by rewrite lookup_insert_ne, lookup_delete_ne.
Qed.




Lemma lookup_append_error_ne e k m k' :
  k ≠ k' → append_error e k m !! k' = e !! k'.
Proof. intros Hne. unfold append_error. by apply lookup_insert_ne. Qed.

(** With an error state, the loop is the fold of its body and never raises. *)
Lemma update_errors_loop_recorded md e c :
  _update_errors_loop md (Some e) c
  = ((Some (foldl errors_step (e, c) md).1, (foldl errors_step (e, c) md).2), None).
Proof.
  revert e c. induction md as [|[k m] md IH]; intros e c; [done|].
  cbn [_update_errors_loop foldl fst snd record_error].
  destruct (String.eqb k NON_FIELD_ERRORS); apply IH.
Qed.

(** Without one, the loop changes nothing: it either meets field keys and
    raises at the first, or finds none. *)
Lemma update_errors_loop_unset md c :
  (_update_errors_loop md None c = ((None, c), None) ∧
   ∀ k, k ∈ md.*1 → k = NON_FIELD_ERRORS)
  ∨ _update_errors_loop md None c
    = ((None, c),
       Some (AttributeError "'NoneType' object has no attribute 'setdefault'")).
Proof.
  induction md as [|[k m] md IH].
  { left. split; [done|]. intros k Hk. by apply elem_of_nil in Hk. }
  cbn [_update_errors_loop record_error].
  destruct (String.eqb k NON_FIELD_ERRORS) eqn:E; [|by right].
  apply String.eqb_eq in E as ->.
  destruct IH as [[-> Hall] | ->]; [left | by right].
  split; [done|]. intros k' Hk'. simpl in Hk'.
  apply elem_of_cons in Hk' as [-> | ?]; [done | by apply Hall].
Qed.

Lemma update_errors_recorded_state (self : form) md recorded :
  _errors self = Some recorded →
  _update_errors self md
  = (set_errors self
       (Some match SortedDict.get md NON_FIELD_ERRORS with
             | Some message =>
                 append_error (foldl errors_step (recorded, cleaned_data self) md).1
                   NON_FIELD_ERRORS
                   (message_or message "MongoEngine data valid failed")
             | None => (foldl errors_step (recorded, cleaned_data self) md).1
             end)
       (foldl errors_step (recorded, cleaned_data self) md).2,
     None).
Proof.
  intros He. unfold _update_errors. rewrite He, update_errors_loop_recorded.
  by destruct (SortedDict.get _ _).
Qed.

Lemma update_errors_unset_state (self : form) md :
  _errors self = None →
  (_update_errors self md).1 = self ∧
  (md ≠ [] →
   (_update_errors self md).2
   = Some (AttributeError "'NoneType' object has no attribute 'setdefault'")).
Proof.
  intros He. unfold _update_errors. rewrite He.
  assert (set_errors self None (cleaned_data self) = self) as Hself.
  { destruct self. simpl in *. by subst. }
  destruct (update_errors_loop_unset md (cleaned_data self)) as [[-> Hall] | ->];
    [|by rewrite Hself].
  destruct md as [|[k m] md].
  { simpl. by rewrite Hself. }
  rewrite (Hall k) by (simpl; apply list_elem_of_here).
  cbn [SortedDict.get]. rewrite String.eqb_refl. simpl. by rewrite Hself.
Qed.





(** A name the error dictionary does not mention keeps its cleaned value and
    its error list, and the bound instance is never touched, whether the
    call returns or raises. *)
Theorem update_errors_frame (self : form) (message_dict : list (string * string))
    (k : string) :
  k ∉ message_dict.*1 →
  cleaned_data (_update_errors self message_dict).1 !! k
    = cleaned_data self !! k ∧
  default ∅ (_errors (_update_errors self message_dict).1) !! k
    = default ∅ (_errors self) !! k ∧
  instance (_update_errors self message_dict).1 = instance self.
Proof.
  intros Hk. destruct (_errors self) as [recorded|] eqn:Hrec.
  - rewrite (update_errors_recorded_state _ _ _ Hrec).
    pose proof (errors_loop_frame message_dict recorded
                  (cleaned_data self) k) as [He Hc]; [by left|].
    cbn [fst snd _errors cleaned_data set_errors instance from_option id].
    split; [done|]. split; [|done].
    destruct (SortedDict.get message_dict NON_FIELD_ERRORS) as [m|] eqn:Hget;
      [|done].
    rewrite lookup_append_error_ne; [done|].
    intros <-. rewrite SortedDict_get_None in Hget; done.
  - destruct (update_errors_unset_state self message_dict Hrec) as [-> _].
    by rewrite Hrec.
Qed.

Lemma update_errors_frame_witness :
  cleaned_data
    (_update_errors
       (Sample.cleaned_form Sample.bob {[ "name" := VStr "Rob"; "email" := VStr "x" ]})
       [("email", "Invalid")]).1 !! "name"
  = Some (VStr "Rob").
Proof.
  destruct (update_errors_frame
              (Sample.cleaned_form Sample.bob {[ "name" := VStr "Rob"; "email" := VStr "x" ]})
              [("email", "Invalid")] "name") as [Hc _].
  - apply (bool_decide_unpack _). vm_compute. exact I.
  - exact Hc.
Defined.




(** While the form has no error state yet ([_errors] is [None], as
    [__init__] leaves it), a non-empty error dictionary makes the call fail
    with an [AttributeError], and the form is left as it was. *)
Theorem update_errors_without_error_state (self : form)
    (message_dict : list (string * string)) :
  _errors self = None →
  message_dict ≠ [] →
  _update_errors self message_dict
  = (self, Some (AttributeError "'NoneType' object has no attribute 'setdefault'")).
Proof.
  intros Hnone Hne.
  destruct (update_errors_unset_state self message_dict Hnone) as [Hself Hexn].
  specialize (Hexn Hne). destruct (_update_errors self message_dict).
  simpl in *. by subst.
Qed.

Lemma update_errors_without_error_state_witness :
  (_update_errors
     (set_errors (Sample.cleaned_form Sample.bob {[ "name" := VStr "Rob" ]})
        None {[ "name" := VStr "Rob" ]})
     [("name", "Too short")]).2
  = Some (AttributeError "'NoneType' object has no attribute 'setdefault'").
Proof.
  rewrite (update_errors_without_error_state
             (set_errors (Sample.cleaned_form Sample.bob {[ "name" := VStr "Rob" ]})
                None {[ "name" := VStr "Rob" ]})
             [("name", "Too short")]).
  - reflexivity.
  - reflexivity.
  - discriminate.
Defined.

End UpdateErrors.

(** ** [_post_clean] and [save] *)

Lemma update_errors_instance (self : form) (message_dict : list (string * string)) :
  instance (_update_errors self message_dict).1 = instance self.
Proof.
  unfold _update_errors.
  destruct (_update_errors_loop _ _ _) as [[errors cleaned] [e|]]; [done|].
  destruct (SortedDict.get _ _); [|done]. by destruct (record_error _ _ _).
Qed.

Lemma post_clean_instance_eq
    (validate : mongoengine.instance → option (list (string * string)))
    (self : form) :
  instance (_post_clean validate self).1
  = construct_instance self (instance self)
      (fields (form_meta self)) (exclude (form_meta self)).
Proof.
  unfold _post_clean. destruct (validate _); [|done].
  by rewrite update_errors_instance.
Qed.

(** The write-back is not undone: after [_post_clean] the form is bound to
    the instance [construct_instance] made, whether validation passed or
    not, and whether the call returned or raised. *)
Theorem post_clean_instance
    (validate : mongoengine.instance → option (list (string * string)))
    (self : form) :
  instance (_post_clean validate self).1
  = construct_instance self (instance self)
      (fields (form_meta self)) (exclude (form_meta self)).
Proof. apply post_clean_instance_eq. Qed.





(** What [save] can return: always the bound instance itself; it calls the
    instance's own [save()] exactly when [commit] is set, which it never
    does for an embedded document, nor, for any other instance, while errors
    are recorded. *)
Theorem save_returns_bound_instance (self : form) (commit persisted : bool)
    (inst : mongoengine.instance) :
  save self commit = Ok (inst, persisted) →
  inst = instance self ∧ persisted = commit ∧
  (mongoengine.is_EmbeddedDocument (mongoengine.__class__ (instance self)) = true →
   persisted = false) ∧
  (mongoengine.is_EmbeddedDocument (mongoengine.__class__ (instance self)) = false →
   has_errors self = false).
Proof.
  unfold save.
  destruct (mongoengine.is_EmbeddedDocument _).
  - destruct commit; [done|]. by intros [= <- <-].
  - destruct (has_errors self).
    + by destruct (mongoengine.is_Document _); [destruct (mongoengine.pk _)|].
    + by intros [= <- <-].
Qed.

Lemma save_returns_bound_instance_witness :
  Sample.bob = instance (Sample.cleaned_form Sample.bob ∅) ∧ true = true.
Proof.
  destruct (save_returns_bound_instance (Sample.cleaned_form Sample.bob ∅)
              true true Sample.bob) as (Hi & Hp & _).
  - reflexivity.
  - split; [exact Hi | exact Hp].
Defined.

(** A form with errors whose instance is neither a [Document] nor an
    [EmbeddedDocument] makes [save] fail on the unassigned [fail_message]. *)
Theorem save_unassigned_fail_message (self : form) (commit : bool) :
  mongoengine.is_EmbeddedDocument (mongoengine.__class__ (instance self)) = false →
  mongoengine.is_Document (mongoengine.__class__ (instance self)) = false →
  has_errors self = true →
  save self commit
  = Raise (UnboundLocalError
             "local variable 'fail_message' referenced before assignment").
Proof. unfold save. by intros -> -> ->. Qed.

Lemma save_unassigned_fail_message_witness :
  save (Sample.failed_form
          {| mongoengine.__class__ :=
               {| mongoengine.__name__ := "Note";
                  mongoengine._fields := [("text", Sample.StringField)];
                  mongoengine.is_Document := false;
                  mongoengine.is_EmbeddedDocument := false;
                  mongoengine.id_field := "id" |};
             mongoengine._data := ∅ |} "text") false
  = Raise (UnboundLocalError
             "local variable 'fail_message' referenced before assignment").
Proof.
  apply (save_unassigned_fail_message
           (Sample.failed_form
              {| mongoengine.__class__ :=
                   {| mongoengine.__name__ := "Note";
                      mongoengine._fields := [("text", Sample.StringField)];
                      mongoengine.is_Document := false;
                      mongoengine.is_EmbeddedDocument := false;
                      mongoengine.id_field := "id" |};
                 mongoengine._data := ∅ |} "text") false);
    reflexivity.
Defined.

(** ** More on [construct_instance] *)

Lemma instance_eq (i1 i2 : mongoengine.instance) :
  mongoengine.__class__ i1 = mongoengine.__class__ i2 →
  (∀ name, mongoengine._data i1 !! name = mongoengine._data i2 !! name) →
  i1 = i2.
Proof.
  destruct i1, i2. simpl. intros -> Hdata. f_equal. by apply map_eq.
Qed.

(** Writing the same cleaned data back a second time changes nothing. *)
Theorem construct_instance_idempotent (form : form)
    (inst : mongoengine.instance) (fields exclude : option (list string)) :
  NoDup (mongoengine._fields (mongoengine.__class__ inst)).*1 →
  construct_instance form (construct_instance form inst fields exclude)
    fields exclude
  = construct_instance form inst fields exclude.
Proof.
  intros Hnd.
  assert (mongoengine.__class__ (construct_instance form inst fields exclude)
          = mongoengine.__class__ inst) as Hcls.
  { unfold construct_instance. apply construct_instance_loop_class. }
  apply instance_eq.
  { unfold construct_instance at 1. by rewrite construct_instance_loop_class. }
  intros name. unfold construct_instance at 1. rewrite Hcls.
  destruct (decide (name ∈ (mongoengine._fields (mongoengine.__class__ inst)).*1))
    as [Hin | Hnin]; [|by apply construct_instance_loop_frame].
  destruct (cleaned_data form !! name) as [c|] eqn:Hc;
    [|apply construct_instance_loop_frame; by left].
  destruct (given_and_not_in fields name) eqn:Hf;
    [apply construct_instance_loop_frame; by right; left|].
  destruct (and_in exclude name) eqn:He;
    [apply construct_instance_loop_frame; by right; right|].
  apply list_elem_of_fmap in Hin as ([n f] & -> & Hin). simpl in *.
  rewrite (construct_instance_loop_written _ _ _ _ _ n f c) by done.
  unfold construct_instance.
  by rewrite (construct_instance_loop_written _ _ _ _ _ n f c).
Qed.

Lemma construct_instance_idempotent_witness :
  construct_instance
    (Sample.cleaned_form Sample.bob {[ "name" := VStr "Rob"; "email" := VStr "" ]})
    (construct_instance
       (Sample.cleaned_form Sample.bob {[ "name" := VStr "Rob"; "email" := VStr "" ]})
       Sample.bob None None) None None
  = construct_instance
      (Sample.cleaned_form Sample.bob {[ "name" := VStr "Rob"; "email" := VStr "" ]})
      Sample.bob None None.
Proof.
  apply (construct_instance_idempotent
           (Sample.cleaned_form Sample.bob {[ "name" := VStr "Rob"; "email" := VStr "" ]})
           Sample.bob None None).
  apply (bool_decide_unpack _). vm_compute. exact I.
Defined.
